(** * raw_from_api_to_s3: the raw ingestion task of [dags/raw_from_api_to_s3.py]

    A shallow embedding of the Airflow DAG module: the module constants,
    [get_dates], [get_and_transfer_api_data_to_s3] and the DAG
    configuration.  The task is effectful Python; it is modelled as a
    computation in a small trace-and-exception monad over an explicit
    description of what the outside world (DuckDB) answers. *)

From stdpp Require Import base strings list gmap pretty.
From Stdlib Require Import Ascii Lia.

Local Open Scope stdpp_scope.

(** ** Strings *)

Module Str.

(** The line feed of a Python source line break inside a string literal. *)
Definition nl : string := String "010"%char EmptyString.

(** [contains sub s]: [sub] occurs in [s] (Python's [sub in s]). *)
Definition contains (sub s : string) : Prop :=
  ∃ before after, s = before +:+ sub +:+ after.

(** Python's [str.zfill]: pad with zeros on the left up to [width]. *)
Fixpoint zeros (n : nat) : string :=
  match n with O => "" | S k => String "0"%char (zeros k) end.

Definition is_sign (c : ascii) : bool :=
  match c with "-" | "+" => true | _ => false end%char.

Definition zfill (width : nat) (s : string) : string :=
  let pad := zeros (width - String.length s) in
  match s with
  | String c r => if is_sign c then String c (pad +:+ r) else pad +:+ s
  | EmptyString => pad
  end.

Definition is_digit (c : ascii) : bool :=
  match Ascii.is_nat c with Some _ => true | None => false end.

Fixpoint all_digits (s : string) : bool :=
  match s with
  | EmptyString => true
  | String c r => is_digit c && all_digits r
  end.

(** Reading a run of decimal digits. *)
Fixpoint parse_digits (s : string) (acc : Z) : option Z :=
  match s with
  | EmptyString => Some acc
  | String c r =>
      match Ascii.is_nat c with
      | Some d => parse_digits r (10 * acc + Z.of_nat d)%Z
      | None => None
      end
  end.

(** The shape YYYY-MM-DD: four digits, a dash, two digits, a dash, two
    digits, and nothing else. *)
Definition is_iso_date (s : string) : bool :=
  match s with
  | String y1 (String y2 (String y3 (String y4 (String "-"
      (String m1 (String m2 (String "-" (String d1 (String d2 EmptyString))))))))) =>
      forallb is_digit [y1; y2; y3; y4; m1; m2; d1; d2]
  | _ => false
  end%char.

(** The year, month and day written in a string of that shape. *)
Definition read_iso_date (s : string) : option (Z * Z * Z) :=
  if is_iso_date s then
    y ← parse_digits (String.substring 0 4 s) 0%Z;
    m ← parse_digits (String.substring 5 2 s) 0%Z;
    d ← parse_digits (String.substring 8 2 s) 0%Z;
    Some (y, m, d)
  else None.

(** [n] decimal digits that read as [v]. *)
Definition digits_of (n : nat) (v : Z) (s : string) : bool :=
  bool_decide (String.length s = n) && all_digits s &&
  bool_decide (parse_digits s 0%Z = Some v).

End Str.

(** ** Exceptions and results *)

(** The exceptions that can cross the task: the [KeyError] of a missing
    context key, and whatever a collaborator (an object's [format], DuckDB)
    raises, kept opaque as a class name and a message. *)
Inductive exn : Type :=
  | KeyError (key : string)
  | Raised (class message : string).

Inductive result (A : Type) : Type :=
  | Ok (a : A)
  | Err (e : exn).
Arguments Ok {A} a.
Arguments Err {A} e.

(** ** pendulum.DateTime and its [format] *)

Record DateTime : Type := mkDateTime {
  year : Z; month : Z; day : Z;
  hour : Z; minute : Z; second : Z;
  tz : string
}.

(** A [datetime] has [1 <= year <= 9999], a month of the year and a day of
    the month; only these bounds matter for formatting. *)
Definition valid_date (d : DateTime) : Prop :=
  (1 ≤ year d ≤ 9999 ∧ 1 ≤ month d ≤ 12 ∧ 1 ≤ day d ≤ 31)%Z.

(** The tokens of pendulum's formatter that the module uses. *)
Inductive token : Type :=
  | YYYY | MM | DD
  | Lit (c : ascii).

(** Tokenisation of a format string: the longest token at the front,
    anything else is copied through. *)
Fixpoint tokenize (fmt : string) : list token :=
  match fmt with
  | String "Y" (String "Y" (String "Y" (String "Y" rest))) => YYYY :: tokenize rest
  | String "M" (String "M" rest) => MM :: tokenize rest
  | String "D" (String "D" rest) => DD :: tokenize rest
  | String c rest => Lit c :: tokenize rest
  | EmptyString => []
  end%char.

(** [f"{n:d}"]: the decimal digits of [n]. *)
Definition fmt_d (n : Z) : string := pretty n.

(** [f"{n:0wd}"]: decimal digits, zero-padded to width [w]. *)
Definition fmt_int (width : nat) (n : Z) : string := Str.zfill width (pretty n).

(** pendulum's rules for the three tokens: the year as it is, the month
    and the day on two digits. *)
Definition format_token (d : DateTime) (t : token) : string :=
  match t with
  | YYYY => fmt_d (year d)
  | MM => fmt_int 2 (month d)
  | DD => fmt_int 2 (day d)
  | Lit c => String c EmptyString
  end.

Definition format (d : DateTime) (fmt : string) : string :=
  foldr (λ t acc, format_token d t +:+ acc) "" (tokenize fmt).

(** ** The Airflow context *)

(** A context entry is a Python object.  The task only ever calls
    [.format(fmt)] on an entry, so an object that is not a pendulum
    [DateTime] is represented by what that call does: it raises (the
    [AttributeError] of an object without [format]) or returns a string. *)
Inductive object : Type :=
  | VDateTime (d : DateTime)
  | VObject (format_method : string → result string).

Definition call_format (o : object) (fmt : string) : result string :=
  match o with
  | VDateTime d => Ok (format d fmt)
  | VObject m => m fmt
  end.

(** [context[key]]: a missing key raises [KeyError]. *)
Definition getitem (context : gmap string object) (key : string) : result object :=
  match context !! key with
  | Some o => Ok o
  | None => Err (KeyError key)
  end.

Definition rbind {A B} (r : result A) (k : A → result B) : result B :=
  match r with
  | Ok a => k a
  | Err e => Err e
  end.

(** [get_dates]: the two interval bounds of the context, formatted. *)
Definition get_dates (context : gmap string object) : result (string * string) :=
  rbind (getitem context "data_interval_start") (λ s,
  rbind (call_format s "YYYY-MM-DD") (λ start_date,
  rbind (getitem context "data_interval_end") (λ e,
  rbind (call_format e "YYYY-MM-DD") (λ end_date,
  Ok (start_date, end_date))))).

Definition may1 : DateTime := mkDateTime 2025 5 1 0 0 0 "UTC".
Definition may2 : DateTime := mkDateTime 2025 5 2 0 0 0 "UTC".

Definition ctx_may1 : gmap string object :=
  <["data_interval_start" := VDateTime may1]>
  (<["data_interval_end" := VDateTime may2]> ∅).

(** ** Module constants *)

Definition OWNER : string := "almas.maksutbekov".
Definition DAG_ID : string := "raw_from_api_to_s3".
Definition LAYER : string := "raw".
Definition SOURCE : string := "earthquake".

(** ** The SQL script handed to DuckDB *)

(** The statements of the script, in the shape the f-string has them. *)
Inductive statement : Type :=
  | SetOption (assignment : string)
  | Install (extension : string)
  | Load (extension : string)
  | CopyCsvTo (url path : string).

Definition indent (n : nat) : string := String.string_of_list_ascii (replicate n " "%char).

Definition render_statement (s : statement) : string :=
  match s with
  | SetOption a => indent 8 +:+ "SET " +:+ a +:+ ";" +:+ Str.nl
  | Install e => indent 8 +:+ "INSTALL " +:+ e +:+ ";" +:+ Str.nl
  | Load e => indent 8 +:+ "LOAD " +:+ e +:+ ";" +:+ Str.nl
  | CopyCsvTo url path =>
      Str.nl +:+
      indent 8 +:+ "COPY" +:+ Str.nl +:+
      indent 8 +:+ "(" +:+ Str.nl +:+
      indent 12 +:+ "SELECT" +:+ Str.nl +:+
      indent 16 +:+ "*" +:+ Str.nl +:+
      indent 12 +:+ "FROM" +:+ Str.nl +:+
      indent 16 +:+ "read_csv_auto('" +:+ url +:+ "') AS res" +:+ Str.nl +:+
      indent 8 +:+ ") TO '" +:+ path +:+ "';" +:+ Str.nl
  end.

Definition render (script : list statement) : string :=
  "--sql" +:+ Str.nl +:+
  foldr (λ s acc, render_statement s +:+ acc) (Str.nl +:+ indent 8) script.

(** The remote resource: the fixed USGS endpoint with the two dates put
    into its query string. *)
Definition api_url (start_date end_date : string) : string :=
  "https://earthquake.usgs.gov/fdsnws/event/1/query?format=csv&starttime="
  +:+ start_date +:+ "&endtime=" +:+ end_date.

(** The storage object the COPY writes. *)
Definition s3_path (layer source start_date : string) : string :=
  "s3://prod/" +:+ layer +:+ "/" +:+ source +:+ "/" +:+ start_date +:+ "/"
  +:+ start_date +:+ "_00-00-00.gz.parquet".

(** httpfs and S3 settings of the session: everything before the COPY. *)
Definition session_config (access_key secret_key : string) : list statement :=
  [ SetOption "TIMEZONE='UTC'";
    Install "httpfs";
    Load "httpfs";
    SetOption "s3_url_style = 'path'";
    SetOption "s3_endpoint = 'minio:9000'";
    SetOption ("s3_access_key_id = '" +:+ access_key +:+ "'");
    SetOption ("s3_secret_access_key = '" +:+ secret_key +:+ "'");
    SetOption "s3_use_ssl = FALSE" ].

Definition script (access_key secret_key start_date end_date : string) : list statement :=
  session_config access_key secret_key ++
  [ CopyCsvTo (api_url start_date end_date) (s3_path LAYER SOURCE start_date) ].

(** The text of the f-string passed to [con.sql]. *)
Definition query (access_key secret_key start_date end_date : string) : string :=
  render (script access_key secret_key start_date end_date).

(** What the script reads and what it writes. *)
Definition copy_sources (script : list statement) : list string :=
  omap (λ s, match s with CopyCsvTo url _ => Some url | _ => None end) script.

Definition copy_targets (script : list statement) : list string :=
  omap (λ s, match s with CopyCsvTo _ path => Some path | _ => None end) script.

(** ** The task *)

(** The calls the task makes on its collaborators, in order.  [ConSql]
    records the script whose rendering is the argument of [con.sql]. *)
Inductive event : Type :=
  | LoggingInfo (message : string)
  | DuckdbConnect
  | ConSql (script : list statement)
  | ConClose.

(** What DuckDB answers: each call returns, or raises the given exception. *)
Record DuckDB : Type := mkDuckDB {
  connect_raises : option exn;
  sql_raises : string → option exn;
  close_raises : option exn
}.

(** A computation appends the calls it makes to the trace and either
    returns a value or stops with an exception. *)
Definition Task (A : Type) : Type := list event → list event * result A.

Definition ret {A} (a : A) : Task A := λ tr, (tr, Ok a).

Definition bind {A B} (m : Task A) (k : A → Task B) : Task B :=
  λ tr, match m tr with
        | (tr', Ok a) => k a tr'
        | (tr', Err e) => (tr', Err e)
        end.

Definition lift {A} (r : result A) : Task A := λ tr, (tr, r).

(** A call on a collaborator: it is made, then it returns or raises. *)
Definition call (e : event) (raises : option exn) : Task unit :=
  λ tr, (tr ++ [e], match raises with Some x => Err x | None => Ok tt end).

Declare Scope task_scope.
Delimit Scope task_scope with task.
Notation "x <- m ;; k" := (bind m (λ x, k))
  (at level 100, m at next level, right associativity) : task_scope.
Notation "m ;; k" := (bind m (λ _, k))
  (at level 100, right associativity) : task_scope.

Definition start_message (start_date end_date : string) : string :=
  "💻 Start load for dates: " +:+ start_date +:+ "/" +:+ end_date.

Definition success_message (start_date : string) : string :=
  "✅ Download for date success: " +:+ start_date.

Section Task.

(** The credentials read from the Airflow Variables at import, and the
    DuckDB the run talks to. *)
Variables ACCESS_KEY SECRET_KEY : string.
Variable db : DuckDB.

Definition logging_info (message : string) : Task unit :=
  call (LoggingInfo message) None.

Definition duckdb_connect : Task unit := call DuckdbConnect (connect_raises db).

Definition con_sql (script : list statement) : Task unit :=
  call (ConSql script) (sql_raises db (render script)).

Definition con_close : Task unit := call ConClose (close_raises db).

Definition get_and_transfer_api_data_to_s3 (context : gmap string object) : Task unit :=
  (dates <- lift (get_dates context) ;;
   let '(start_date, end_date) := dates in
   logging_info (start_message start_date end_date) ;;
   duckdb_connect ;;
   con_sql (script ACCESS_KEY SECRET_KEY start_date end_date) ;;
   con_close ;;
   logging_info (success_message start_date))%task.

(** One run, from the empty trace. *)
Definition run (context : gmap string object) : list event * result unit :=
  get_and_transfer_api_data_to_s3 context [].

End Task.

Definition db_ok : DuckDB := mkDuckDB None (λ _, None) None.

(** ** Reading a trace *)

Definition trace_logs (tr : list event) : list string :=
  omap (λ e, match e with LoggingInfo m => Some m | _ => None end) tr.

Definition trace_scripts (tr : list event) : list (list statement) :=
  omap (λ e, match e with ConSql sc => Some sc | _ => None end) tr.

Definition trace_sources (tr : list event) : list string :=
  trace_scripts tr ≫= copy_sources.

Definition trace_targets (tr : list event) : list string :=
  trace_scripts tr ≫= copy_targets.

(** What a call changes outside the process.  Settings and [LOAD] stay
    inside the in-memory session; [INSTALL] fetches the extension and
    stores it in the local extension directory; the COPY reads the remote
    resource and writes the storage object. *)
Inductive effect : Type :=
  | EmitLog (message : string)
  | InstallExtension (extension : string)
  | NetworkRead (url : string)
  | StorageWrite (path : string).

Definition statement_effects (s : statement) : list effect :=
  match s with
  | SetOption _ => []
  | Install e => [InstallExtension e]
  | Load _ => []
  | CopyCsvTo url path => [NetworkRead url; StorageWrite path]
  end.

Definition event_effects (e : event) : list effect :=
  match e with
  | LoggingInfo m => [EmitLog m]
  | DuckdbConnect => []
  | ConSql sc => sc ≫= statement_effects
  | ConClose => []
  end.

Definition trace_effects (tr : list event) : list effect := tr ≫= event_effects.

(** ** The DAG and its default arguments *)

Record Duration : Type := mkDuration {
  days : Z; hours : Z; minutes : Z; seconds : Z
}.

Definition total_seconds (d : Duration) : Z :=
  (((days d * 24 + hours d) * 60 + minutes d) * 60 + seconds d)%Z.

Record DefaultArgs : Type := mkDefaultArgs {
  owner : string;
  start_date : DateTime;
  catchup : bool;
  retries : Z;
  retry_delay : Duration
}.

Definition args : DefaultArgs := {|
  owner := OWNER;
  start_date := mkDateTime 2025 5 1 0 0 0 "Europe/Moscow";
  catchup := true;
  retries := 3;
  retry_delay := mkDuration 0 1 0 0
|}.

Record DAG : Type := mkDAG {
  dag_id : string;
  schedule_interval : string;
  default_args : DefaultArgs;
  tags : list string;
  description : string;
  concurrency : Z;
  max_active_tasks : Z;
  max_active_runs : Z
}.

Definition SHORT_DESCRIPTION : string :=
  "Загрузка raw данных из USGS в S3 (MinIO) через DuckDB".

Definition dag : DAG := {|
  dag_id := DAG_ID;
  schedule_interval := "0 5 * * *";
  default_args := args;
  tags := ["s3"; "raw"];
  description := SHORT_DESCRIPTION;
  concurrency := 1;
  max_active_tasks := 1;
  max_active_runs := 1
|}.

(** The five fields of a cron expression, each a wildcard or a number. *)
Inductive cron_field : Type :=
  | Every
  | At (n : Z).

Record Cron : Type := mkCron {
  cron_minute : cron_field;
  cron_hour : cron_field;
  cron_day : cron_field;
  cron_month : cron_field;
  cron_weekday : cron_field
}.

Definition parse_field (s : string) : option cron_field :=
  match s with
  | EmptyString => None
  | String "*" EmptyString => Some Every
  | _ => At <$> Str.parse_digits s 0%Z
  end%char.

Definition parse_cron (s : string) : option Cron :=
  match String.words s with
  | [mi; h; d; mo; wd] =>
      mi' ← parse_field mi; h' ← parse_field h; d' ← parse_field d;
      mo' ← parse_field mo; wd' ← parse_field wd;
      Some (mkCron mi' h' d' mo' wd')
  | _ => None
  end.

Definition field_matches (f : cron_field) (v : Z) : bool :=
  match f with
  | Every => true
  | At n => bool_decide (n = v)
  end.

(** Does the schedule fire at the minute [t], which falls on [weekday]? *)
Definition fires (c : Cron) (t : DateTime) (weekday : Z) : bool :=
  field_matches (cron_minute c) (minute t) &&
  field_matches (cron_hour c) (hour t) &&
  field_matches (cron_day c) (day t) &&
  field_matches (cron_month c) (month t) &&
  field_matches (cron_weekday c) weekday.

(** ** The shape of a run *)

(** The trace of a run that got as far as each call. *)
Definition upto_connect (sd ed : string) : list event :=
  [LoggingInfo (start_message sd ed); DuckdbConnect].

Definition upto_sql (ak sk sd ed : string) : list event :=
  upto_connect sd ed ++ [ConSql (script ak sk sd ed)].

Definition upto_close (ak sk sd ed : string) : list event :=
  upto_sql ak sk sd ed ++ [ConClose].

Definition complete (ak sk sd ed : string) : list event :=
  upto_close ak sk sd ed ++ [LoggingInfo (success_message sd)].

(** Every run is one of the five. *)
Inductive run_shape (ak sk : string) (db : DuckDB) (context : gmap string object) :
  list event * result unit → Prop :=
  | shape_no_dates e :
      get_dates context = Err e → run_shape ak sk db context ([], Err e)
  | shape_connect_raises sd ed x :
      get_dates context = Ok (sd, ed) → connect_raises db = Some x →
      run_shape ak sk db context (upto_connect sd ed, Err x)
  | shape_sql_raises sd ed x :
      get_dates context = Ok (sd, ed) → connect_raises db = None →
      sql_raises db (query ak sk sd ed) = Some x →
      run_shape ak sk db context (upto_sql ak sk sd ed, Err x)
  | shape_close_raises sd ed x :
      get_dates context = Ok (sd, ed) → connect_raises db = None →
      sql_raises db (query ak sk sd ed) = None → close_raises db = Some x →
      run_shape ak sk db context (upto_close ak sk sd ed, Err x)
  | shape_succeeds sd ed :
      get_dates context = Ok (sd, ed) → connect_raises db = None →
      sql_raises db (query ak sk sd ed) = None → close_raises db = None →
      run_shape ak sk db context (complete ak sk sd ed, Ok tt).

(** ** Sample worlds *)

Definition may3 : DateTime := mkDateTime 2025 5 3 0 0 0 "UTC".

(** The interval of 1 May with one more context key. *)
Definition ctx_may1_run_id : gmap string object :=
  <["run_id" := VObject (λ _, Ok "scheduled__2025-05-01T00:00:00+00:00")]> ctx_may1.

(** The same start with a two-day interval. *)
Definition ctx_may1_to_may3 : gmap string object :=
  <["data_interval_start" := VDateTime may1]>
  (<["data_interval_end" := VDateTime may3]> ∅).

(** A context without the interval. *)
Definition ctx_empty : gmap string object := ∅.

(** A DuckDB whose script fails: the remote endpoint answers 400. *)
Definition http_error : exn := Raised "duckdb.duckdb.HTTPException" "HTTP 400".

Definition db_http_error : DuckDB := mkDuckDB None (λ _, Some http_error) None.

(** A DuckDB that cannot be started, and one that fails on close. *)
Definition io_error : exn := Raised "duckdb.duckdb.IOException" "IO Error".

Definition db_connect_error : DuckDB := mkDuckDB (Some io_error) (λ _, None) None.

Definition db_close_error : DuckDB := mkDuckDB None (λ _, None) (Some io_error).

(** Five in the morning of 1 May 2025, a Thursday. *)
Definition may1_0500 : DateTime := mkDateTime 2025 5 1 5 0 0 "UTC".

(** ** An interval before the year 1000 *)

(** The order of two timestamps by calendar day. *)
Definition starts_before (s e : DateTime) : Prop :=
  (year s < year e ∨
   (year s = year e ∧
    (month s < month e ∨ (month s = month e ∧ day s < day e))))%Z.

Definition may1_999 : DateTime := mkDateTime 999 5 1 0 0 0 "UTC".
Definition may2_999 : DateTime := mkDateTime 999 5 2 0 0 0 "UTC".

Definition ctx_may1_999 : gmap string object :=
  <["data_interval_start" := VDateTime may1_999]>
  (<["data_interval_end" := VDateTime may2_999]> ∅).

(** ** Calendar days *)

(** Two timestamps on the same day of the calendar. *)
Definition same_day (d1 d2 : DateTime) : Prop :=
  year d1 = year d2 ∧ month d1 = month d2 ∧ day d1 = day d2.

(** Later moments of 1 and 2 May 2025, labelled with another zone. *)
Definition may1_evening : DateTime := mkDateTime 2025 5 1 21 30 15 "Europe/Moscow".
Definition may2_evening : DateTime := mkDateTime 2025 5 2 21 30 15 "Europe/Moscow".

Definition ctx_may1_evening : gmap string object :=
  <["data_interval_start" := VDateTime may1_evening]>
  (<["data_interval_end" := VDateTime may2_evening]> ∅).

(** ** Strings free of a character *)

Fixpoint free_of (c : ascii) (s : string) : bool :=
  match s with
  | EmptyString => true
  | String x r => negb (Ascii.eqb x c) && free_of c r
  end.

(** Neither a single quote, which ends an SQL string literal, nor an
    ampersand, which ends a query parameter. *)
Definition plain (s : string) : bool :=
  free_of "'"%char s && free_of "&"%char s.

(** ** The operators of the DAG and their wiring *)

Module Wiring.

(** An operator: its task id and, for a [PythonOperator], the callable it
    runs; an [EmptyOperator] has none. *)
Record Operator : Type := mkOperator {
  task_id : string;
  python_callable :
    option (string → string → DuckDB → gmap string object → Task unit)
}.

Definition EmptyOperator (task_id : string) : Operator := mkOperator task_id None.

Definition PythonOperator (task_id : string)
    (python_callable : string → string → DuckDB → gmap string object → Task unit) :
    Operator :=
  mkOperator task_id (Some python_callable).

(** The tasks of a DAG in the order they were created, and the
    dependencies set between them, upstream id first. *)
Record Graph : Type := mkGraph {
  task_ids : list string;
  edges : list (string * string)
}.

(** Creating an operator inside [with DAG(...)] adds it to the DAG; a task
    id already there is refused. *)
Definition add_task (g : Graph) (op : Operator) : result Graph :=
  if bool_decide (task_id op ∈ task_ids g)
  then Err (Raised "airflow.exceptions.DuplicateTaskIdFound" (task_id op))
  else Ok (mkGraph (task_ids g ++ [task_id op]) (edges g)).

(** [a >> b]: [b] becomes downstream of [a]; the value is [b], so that the
    operator chains to the right. *)
Definition rshift (g : Graph) (a b : Operator) : Graph * Operator :=
  (mkGraph (task_ids g) (edges g ++ [(task_id a, task_id b)]), b).

Definition start : Operator := EmptyOperator "start".

(** The module rebinds the name of the function to the operator built
    from it; the callable is the function. *)
Definition get_and_transfer_api_data_to_s3 : Operator :=
  PythonOperator "get_and_transfer_api_data_to_s3" get_and_transfer_api_data_to_s3.

Definition end_ : Operator := EmptyOperator "end".

(** The body of the [with DAG(...)] block. *)
Definition wiring : result Graph :=
  rbind (add_task (mkGraph [] []) start) (λ g1,
  rbind (add_task g1 get_and_transfer_api_data_to_s3) (λ g2,
  rbind (add_task g2 end_) (λ g3,
  let '(g4, middle) := rshift g3 start get_and_transfer_api_data_to_s3 in
  let '(g5, _) := rshift g4 middle end_ in
  Ok g5))).

(** The place of a task in an order of execution. *)
Fixpoint position (x : string) (l : list string) : option nat :=
  match l with
  | [] => None
  | y :: r => if bool_decide (x = y) then Some 0 else S <$> position x r
  end.

Definition before (a b : string) (order : list string) : bool :=
  match position a order, position b order with
  | Some i, Some j => bool_decide (i < j)
  | _, _ => false
  end.

(** An order of execution of the DAG: every task once, each after the
    tasks upstream of it. *)
Definition respects (g : Graph) (order : list string) : Prop :=
  NoDup order ∧
  (∀ x, x ∈ order ↔ x ∈ task_ids g) ∧
  (∀ a b, (a, b) ∈ edges g → before a b order = true).

End Wiring.

(** * Properties *)

(** ** Strings *)

Module StrFacts.
Import Str.

(** [String.app] is sealed against [simpl]; its equation on a character. *)
Lemma app_cons (c : ascii) (s t : string) : String c s +:+ t = String c (s +:+ t).
Proof. reflexivity. Qed.

Lemma app_nil_r (s : string) : s +:+ "" = s.
Proof. induction s as [|c s IH]; [reflexivity | by rewrite app_cons, IH]. Qed.

Lemma app_assoc (s t u : string) : (s +:+ t) +:+ u = s +:+ t +:+ u.
Proof. induction s as [|c s IH]; [reflexivity | by rewrite !app_cons, IH]. Qed.

End StrFacts.

(** ** The code on the interval of 1 May 2025 *)

Example tokenize_iso : tokenize "YYYY-MM-DD" = [YYYY; Lit "-"; MM; Lit "-"; DD].
Proof. reflexivity. Qed.

Example get_dates_may1 : get_dates ctx_may1 = Ok ("2025-05-01", "2025-05-02").
Proof. vm_compute. reflexivity. Qed.

Example query_text :
  query "AK" "SK" "2025-05-01" "2025-05-02" =
"--sql
        SET TIMEZONE='UTC';
        INSTALL httpfs;
        LOAD httpfs;
        SET s3_url_style = 'path';
        SET s3_endpoint = 'minio:9000';
        SET s3_access_key_id = 'AK';
        SET s3_secret_access_key = 'SK';
        SET s3_use_ssl = FALSE;

        COPY
        (
            SELECT
                *
            FROM
                read_csv_auto('https://earthquake.usgs.gov/fdsnws/event/1/query?format=csv&starttime=2025-05-01&endtime=2025-05-02') AS res
        ) TO 's3://prod/raw/earthquake/2025-05-01/2025-05-01_00-00-00.gz.parquet';

        ".
Proof. vm_compute. reflexivity. Qed.

(** The rendering of the script is the f-string of the source: its text
    with the two credentials, the two dates, [LAYER] and [SOURCE] put in
    the places of the replacement fields. *)
Lemma query_is_fstring (access_key secret_key start_date end_date : string) :
  query access_key secret_key start_date end_date =
"--sql
        SET TIMEZONE='UTC';
        INSTALL httpfs;
        LOAD httpfs;
        SET s3_url_style = 'path';
        SET s3_endpoint = 'minio:9000';
        SET s3_access_key_id = '" +:+ access_key +:+ "';
        SET s3_secret_access_key = '" +:+ secret_key +:+ "';
        SET s3_use_ssl = FALSE;

        COPY
        (
            SELECT
                *
            FROM
                read_csv_auto('https://earthquake.usgs.gov/fdsnws/event/1/query?format=csv&starttime=" +:+ start_date +:+ "&endtime=" +:+ end_date +:+ "') AS res
        ) TO 's3://prod/" +:+ LAYER +:+ "/" +:+ SOURCE +:+ "/" +:+ start_date +:+ "/" +:+ start_date +:+ "_00-00-00.gz.parquet';

        ".
Proof.
  unfold query, render, script, session_config, api_url, s3_path.
  cbn [app foldr render_statement].
  rewrite !StrFacts.app_assoc. reflexivity.
Qed.

Example run_may1 :
  run "AK" "SK" db_ok ctx_may1 =
  ([ LoggingInfo "💻 Start load for dates: 2025-05-01/2025-05-02";
     DuckdbConnect;
     ConSql (script "AK" "SK" "2025-05-01" "2025-05-02");
     ConClose;
     LoggingInfo "✅ Download for date success: 2025-05-01" ], Ok tt).
Proof. vm_compute. reflexivity. Qed.

Example parse_schedule :
  parse_cron (schedule_interval dag) = Some (mkCron (At 0) (At 5) Every Every Every).
Proof. reflexivity. Qed.

(** ** The monad has no handler *)

Section TaskFacts.

Context {A B : Type}.

Lemma bind_err (m : Task A) (k : A → Task B) tr tr' e :
  m tr = (tr', Err e) → bind m k tr = (tr', Err e).
Proof. intros H. unfold bind. by rewrite H. Qed.

Lemma bind_ok (m : Task A) (k : A → Task B) tr tr' a :
  m tr = (tr', Ok a) → bind m k tr = k a tr'.
Proof. intros H. unfold bind. by rewrite H. Qed.

End TaskFacts.

Lemma call_returns e tr : call e None tr = (tr ++ [e], Ok tt).
Proof. reflexivity. Qed.

Lemma call_raises e x tr : call e (Some x) tr = (tr ++ [e], Err x).
Proof. reflexivity. Qed.

(** ** The five runs *)

Section RunFacts.

Variables ak sk : string.
Variable db : DuckDB.
Variable context : gmap string object.

Lemma run_no_dates e : get_dates context = Err e → run ak sk db context = ([], Err e).
Proof.
  intros H. unfold run, get_and_transfer_api_data_to_s3.
  apply bind_err. unfold lift. by rewrite H.
Qed.

Section WithDates.

Variables sd ed : string.
Hypothesis Hdates : get_dates context = Ok (sd, ed).

Lemma run_connect_raises x :
  connect_raises db = Some x →
  run ak sk db context = (upto_connect sd ed, Err x).
Proof.
  intros Hc. unfold run, get_and_transfer_api_data_to_s3, lift, bind.
  rewrite Hdates. unfold logging_info, duckdb_connect. by rewrite Hc.
Qed.

Lemma run_sql_raises x :
  connect_raises db = None →
  sql_raises db (query ak sk sd ed) = Some x →
  run ak sk db context = (upto_sql ak sk sd ed, Err x).
Proof.
  intros Hc Hs. unfold run, get_and_transfer_api_data_to_s3, lift, bind.
  rewrite Hdates. unfold logging_info, duckdb_connect, con_sql.
  unfold query in Hs. by rewrite Hc, Hs.
Qed.

Lemma run_close_raises x :
  connect_raises db = None →
  sql_raises db (query ak sk sd ed) = None →
  close_raises db = Some x →
  run ak sk db context = (upto_close ak sk sd ed, Err x).
Proof.
  intros Hc Hs Hx. unfold run, get_and_transfer_api_data_to_s3, lift, bind.
  rewrite Hdates. unfold logging_info, duckdb_connect, con_sql, con_close.
  unfold query in Hs. by rewrite Hc, Hs, Hx.
Qed.

Lemma run_succeeds :
  connect_raises db = None →
  sql_raises db (query ak sk sd ed) = None →
  close_raises db = None →
  run ak sk db context = (complete ak sk sd ed, Ok tt).
Proof.
  intros Hc Hs Hx. unfold run, get_and_transfer_api_data_to_s3, lift, bind.
  rewrite Hdates. unfold logging_info, duckdb_connect, con_sql, con_close.
  unfold query in Hs. by rewrite Hc, Hs, Hx.
Qed.

End WithDates.

Lemma run_cases : run_shape ak sk db context (run ak sk db context).
Proof.
  destruct (get_dates context) as [[sd ed]|e] eqn:Hd.
  2: { rewrite (run_no_dates e Hd). by constructor. }
  destruct (connect_raises db) as [x|] eqn:Hc.
  { rewrite (run_connect_raises sd ed Hd x Hc). by constructor. }
  destruct (sql_raises db (query ak sk sd ed)) as [x|] eqn:Hs.
  { rewrite (run_sql_raises sd ed Hd x Hc Hs). by constructor. }
  destruct (close_raises db) as [x|] eqn:Hx.
  { rewrite (run_close_raises sd ed Hd x Hc Hs Hx). by constructor. }
  rewrite (run_succeeds sd ed Hd Hc Hs Hx). by constructor.
Qed.

End RunFacts.

(** ** Formatting a date *)

Section Formatting.

Import Str StrFacts.

Lemma format_iso (d : DateTime) :
  format d "YYYY-MM-DD" =
  fmt_d (year d) +:+ "-" +:+ fmt_int 2 (month d) +:+ "-" +:+ fmt_int 2 (day d).
Proof.
  unfold format. simpl. by rewrite app_nil_r.
Qed.

(** A property of the numbers below a bound, checked on each of them. *)
Lemma below_bound (P : Z → bool) (bound : nat) :
  forallb (λ n, P (Z.of_nat n)) (seq 0 bound) = true →
  ∀ v : Z, (0 ≤ v < Z.of_nat bound)%Z → P v = true.
Proof.
  intros Hall v Hv. rewrite forallb_forall in Hall.
  specialize (Hall (Z.to_nat v)). rewrite Z2Nat.id in Hall by lia.
  apply Hall, in_seq. lia.
Qed.

Lemma pretty_N_char_is_nat (n : N) :
  (n < 10)%N → Ascii.is_nat (pretty_N_char n) = Some (N.to_nat n).
Proof.
  intros Hn.
  assert (Hc : (n = 0 ∨ n = 1 ∨ n = 2 ∨ n = 3 ∨ n = 4 ∨ n = 5 ∨ n = 6 ∨ n = 7
                ∨ n = 8 ∨ n = 9)%N) by lia.
  repeat (destruct Hc as [->|Hc]; [reflexivity|]). by subst n.
Qed.

(** One step of [pretty]: the last digit goes in front of what is
    already written. *)
Lemma pretty_N_go_digit (x : N) (s : string) :
  (0 < x)%N →
  ∃ q r : N, (x = 10 * q + r)%N ∧ (r < 10)%N ∧
    pretty_N_go x s = pretty_N_go q (String (pretty_N_char r) s).
Proof.
  intros Hx. exists (x `div` 10)%N, (x `mod` 10)%N.
  split; [apply N.div_mod; lia|]. split; [apply N.mod_lt; lia|].
  by apply pretty_N_go_step.
Qed.

(** The four steps of [pretty] on a number of four digits. *)
Lemma pretty_four_digits (x : N) :
  (1000 ≤ x ≤ 9999)%N →
  ∃ r3 r2 r1 r0 : N,
    (r3 < 10 ∧ r2 < 10 ∧ r1 < 10 ∧ r0 < 10)%N ∧
    (x = 1000 * r3 + 100 * r2 + 10 * r1 + r0)%N ∧
    pretty x = String (pretty_N_char r3) (String (pretty_N_char r2)
                 (String (pretty_N_char r1) (String (pretty_N_char r0) ""))).
Proof.
  intros Hx.
  unfold pretty, pretty_N. destruct (decide (x = 0%N)) as [?|_]; [lia|].
  destruct (pretty_N_go_digit x "") as (q1 & r0 & E0 & B0 & ->); [lia|].
  destruct (pretty_N_go_digit q1 (String (pretty_N_char r0) ""))
    as (q2 & r1 & E1 & B1 & ->); [lia|].
  destruct (pretty_N_go_digit q2 (String (pretty_N_char r1) (String (pretty_N_char r0) "")))
    as (q3 & r2 & E2 & B2 & ->); [lia|].
  match goal with |- context [pretty_N_go q3 ?s] =>
    destruct (pretty_N_go_digit q3 s) as (q4 & r3 & E3 & B3 & ->); [lia|]
  end.
  assert (q4 = 0%N) as -> by lia. rewrite pretty_N_go_0.
  exists r3, r2, r1, r0. split; [lia|]. split; [lia | reflexivity].
Qed.

(** A year of four digits is written with its four digits. *)
Lemma fmt_d_year (v : Z) : (1000 ≤ v ≤ 9999)%Z → digits_of 4 v (fmt_d v) = true.
Proof.
  intros Hv. destruct v as [|p|p]; [lia| |lia].
  destruct (pretty_four_digits (Npos p) ltac:(lia))
    as (r3 & r2 & r1 & r0 & (B3 & B2 & B1 & B0) & Hval & Hpretty).
  unfold fmt_d. change (pretty (Z.pos p)) with (pretty (N.pos p)). rewrite Hpretty.
  assert (Hdig : ∀ r, (r < 10)%N → is_digit (pretty_N_char r) = true).
  { intros r Hr. unfold is_digit. by rewrite pretty_N_char_is_nat. }
  unfold digits_of. cbn [String.length all_digits parse_digits].
  rewrite !pretty_N_char_is_nat, !Hdig by done.
  rewrite bool_decide_eq_true_2 by reflexivity. cbn [andb].
  apply bool_decide_eq_true_2. f_equal. lia.
Qed.

Lemma fmt_int_2 (v : Z) : (0 ≤ v < 100)%Z → digits_of 2 v (fmt_int 2 v) = true.
Proof.
  intros Hv.
  apply (below_bound (λ v, digits_of 2 v (fmt_int 2 v)) 100); [by vm_compute | lia].
Qed.

Lemma digits_of_4 v s :
  digits_of 4 v s = true →
  ∃ a b c d, s = String a (String b (String c (String d ""))) ∧
    forallb is_digit [a; b; c; d] = true ∧ parse_digits s 0%Z = Some v.
Proof.
  unfold digits_of. rewrite !andb_true_iff, !bool_decide_eq_true.
  intros [[Hlen Hdig] Hval].
  destruct s as [|a [|b [|c [|d [|? ?]]]]]; try discriminate Hlen.
  exists a, b, c, d. split; [reflexivity|]. split; [exact Hdig | exact Hval].
Qed.

Lemma digits_of_2 v s :
  digits_of 2 v s = true →
  ∃ a b, s = String a (String b "") ∧
    forallb is_digit [a; b] = true ∧ parse_digits s 0%Z = Some v.
Proof.
  unfold digits_of. rewrite !andb_true_iff, !bool_decide_eq_true.
  intros [[Hlen Hdig] Hval].
  destruct s as [|a [|b [|? ?]]]; try discriminate Hlen.
  exists a, b. split; [reflexivity|]. split; [exact Hdig | exact Hval].
Qed.

(** Three padded numbers joined by dashes read back as themselves. *)
Lemma iso_of_digits (y m d : Z) (ys ms ds : string) :
  digits_of 4 y ys = true → digits_of 2 m ms = true → digits_of 2 d ds = true →
  is_iso_date (ys +:+ "-" +:+ ms +:+ "-" +:+ ds) = true ∧
  read_iso_date (ys +:+ "-" +:+ ms +:+ "-" +:+ ds) = Some (y, m, d).
Proof.
  intros (y1 & y2 & y3 & y4 & -> & Hy & Py)%digits_of_4
         (m1 & m2 & -> & Hm & Pm)%digits_of_2
         (d1 & d2 & -> & Hd & Pd)%digits_of_2.
  assert (Hshape : is_iso_date
    (String y1 (String y2 (String y3 (String y4 "")))
       +:+ "-" +:+ String m1 (String m2 "") +:+ "-" +:+ String d1 (String d2 "")) = true).
  { cbn in Hy, Hm, Hd |- *.
    repeat match goal with H : _ && _ = true |- _ => apply andb_true_iff in H as [? ?] end.
    repeat (apply andb_true_iff; split); done. }
  split; [exact Hshape|].
  unfold read_iso_date. rewrite Hshape.
  change (String.substring 0 4 _) with (String y1 (String y2 (String y3 (String y4 "")))).
  change (String.substring 5 2 _) with (String m1 (String m2 "")).
  change (String.substring 8 2 _) with (String d1 (String d2 "")).
  by rewrite Py, Pm, Pd.
Qed.

Lemma format_iso_date (d : DateTime) :
  valid_date d → (1000 ≤ year d)%Z →
  is_iso_date (format d "YYYY-MM-DD") = true ∧
  read_iso_date (format d "YYYY-MM-DD") = Some (year d, month d, day d).
Proof.
  intros (Hy & Hm & Hd) Hy4. rewrite format_iso.
  apply iso_of_digits; [apply fmt_d_year | apply fmt_int_2 | apply fmt_int_2]; lia.
Qed.

End Formatting.

Lemma get_dates_datetimes (context : gmap string object) (s e : DateTime) :
  context !! "data_interval_start" = Some (VDateTime s) →
  context !! "data_interval_end" = Some (VDateTime e) →
  get_dates context = Ok (format s "YYYY-MM-DD", format e "YYYY-MM-DD").
Proof.
  intros Hs He. unfold get_dates, getitem. by rewrite Hs, He.
Qed.

(** C6, as the code has it: [get_dates] returns the pair (start_date,
    end_date), each the timestamp of that name formatted with the pattern
    YYYY-MM-DD; this needs no order between the two.  When the timestamp
    is a date of the calendar with a year of four digits (1000 to 9999),
    as every interval from the DAG's start date 2025-05-01 on has, the
    string has the shape dddd-dd-dd and reads back as the year, month and
    day of the timestamp. *)
Theorem get_dates_iso (context : gmap string object) (s e : DateTime) :
  context !! "data_interval_start" = Some (VDateTime s) →
  context !! "data_interval_end" = Some (VDateTime e) →
  ∃ start_date end_date,
    get_dates context = Ok (start_date, end_date) ∧
    start_date = format s "YYYY-MM-DD" ∧
    end_date = format e "YYYY-MM-DD" ∧
    (valid_date s → (1000 ≤ year s)%Z →
       Str.is_iso_date start_date = true ∧
       Str.read_iso_date start_date = Some (year s, month s, day s)) ∧
    (valid_date e → (1000 ≤ year e)%Z →
       Str.is_iso_date end_date = true ∧
       Str.read_iso_date end_date = Some (year e, month e, day e)).
Proof.
  intros Hs He.
  exists (format s "YYYY-MM-DD"), (format e "YYYY-MM-DD").
  split; [by apply get_dates_datetimes|].
  split; [reflexivity|]. split; [reflexivity|].
  split; apply format_iso_date.
Qed.

Lemma get_dates_iso_witness :
  get_dates ctx_may1 = Ok ("2025-05-01", "2025-05-02") ∧
  Str.is_iso_date "2025-05-01" = true ∧
  Str.read_iso_date "2025-05-02" = Some (2025, 5, 2)%Z.
Proof.
  destruct (get_dates_iso ctx_may1 may1 may2) as (sd & ed & Hd & -> & -> & Hs & He).
  - vm_compute. reflexivity.
  - vm_compute. reflexivity.
  - split; [exact Hd|]. split.
    + apply Hs; [unfold valid_date; simpl; lia | simpl; lia].
    + apply He; [unfold valid_date; simpl; lia | simpl; lia].
Defined.

(** Below the year 1000 pendulum writes the year on fewer digits. *)
Example format_year_999 :
  format (mkDateTime 999 5 1 0 0 0 "UTC") "YYYY-MM-DD" = "999-05-01".
Proof. vm_compute. reflexivity. Qed.

(** C6, counterexample to the claim as stated: the interval from 1 to
    2 May 999 is an interval of calendar dates with start before end, and
    [get_dates] returns for it two strings that do not have the shape
    YYYY-MM-DD: the year is written on three digits. *)
Lemma year_999_not_iso :
  valid_date may1_999 ∧ valid_date may2_999 ∧
  starts_before may1_999 may2_999 ∧
  get_dates ctx_may1_999 = Ok ("999-05-01", "999-05-02") ∧
  Str.is_iso_date "999-05-01" = false ∧
  Str.is_iso_date "999-05-02" = false.
Proof.
  split; [unfold valid_date; simpl; lia|].
  split; [unfold valid_date; simpl; lia|].
  split; [unfold starts_before; simpl; lia|].
  split; [vm_compute; reflexivity|].
  split; reflexivity.
Qed.

(** ** What the run reads and writes *)

Section ReadsAndWrites.

Variables ak sk : string.
Variable db : DuckDB.
Variable context : gmap string object.
Variables sd ed : string.
Hypothesis Hdates : get_dates context = Ok (sd, ed).
Hypothesis Hconnect : connect_raises db = None.

(** Once connected, the run hands DuckDB exactly one script. *)
Lemma run_scripts :
  trace_scripts (run ak sk db context).1 = [script ak sk sd ed].
Proof.
  destruct (sql_raises db (query ak sk sd ed)) as [x|] eqn:Hs.
  { by rewrite (run_sql_raises ak sk db context sd ed Hdates x Hconnect Hs). }
  destruct (close_raises db) as [x|] eqn:Hx.
  { by rewrite (run_close_raises ak sk db context sd ed Hdates x Hconnect Hs Hx). }
  by rewrite (run_succeeds ak sk db context sd ed Hdates Hconnect Hs Hx).
Qed.

Lemma run_targets :
  trace_targets (run ak sk db context).1 = [s3_path LAYER SOURCE sd].
Proof. unfold trace_targets. by rewrite run_scripts. Qed.

Lemma run_sources :
  trace_sources (run ak sk db context).1 = [api_url sd ed].
Proof. unfold trace_sources. by rewrite run_scripts. Qed.

End ReadsAndWrites.

Lemma s3_path_raw_earthquake (sd : string) :
  s3_path LAYER SOURCE sd =
  "s3://prod/raw/earthquake/" +:+ sd +:+ "/" +:+ sd +:+ "_00-00-00.gz.parquet".
Proof. reflexivity. Qed.

(** The text handed to [con.sql] by a run that reaches DuckDB: the
    f-string with the credentials and the dates of the run in it. *)
Lemma run_sql_text (ak sk : string) (db : DuckDB) (context : gmap string object)
    (sd ed : string) :
  get_dates context = Ok (sd, ed) → connect_raises db = None →
  render <$> trace_scripts (run ak sk db context).1 = [query ak sk sd ed].
Proof. intros Hd Hc. by rewrite (run_scripts ak sk db context sd ed Hd Hc). Qed.

(** C1: a run that reaches DuckDB writes exactly one object, at
    [s3_path "raw" "earthquake" start_date], which is
    s3://prod/raw/earthquake/{start_date}/{start_date}_00-00-00.gz.parquet,
    and the text it hands to [con.sql] is the f-string of the source whose
    COPY ends in TO followed by that path in quotes; for start_date
    2025-05-01 the path is
    s3://prod/raw/earthquake/2025-05-01/2025-05-01_00-00-00.gz.parquet;
    and any other run with the same start_date, whatever its credentials,
    DuckDB, context and end_date, targets the same path. *)
Theorem target_path_determined (ak sk : string) (db : DuckDB)
    (context : gmap string object) (start_date end_date : string) :
  get_dates context = Ok (start_date, end_date) →
  connect_raises db = None →
  trace_targets (run ak sk db context).1 = [s3_path "raw" "earthquake" start_date] ∧
  s3_path "raw" "earthquake" start_date =
    "s3://prod/raw/earthquake/" +:+ start_date +:+ "/" +:+ start_date
    +:+ "_00-00-00.gz.parquet" ∧
  render <$> trace_scripts (run ak sk db context).1 =
    ["--sql
        SET TIMEZONE='UTC';
        INSTALL httpfs;
        LOAD httpfs;
        SET s3_url_style = 'path';
        SET s3_endpoint = 'minio:9000';
        SET s3_access_key_id = '" +:+ ak +:+ "';
        SET s3_secret_access_key = '" +:+ sk +:+ "';
        SET s3_use_ssl = FALSE;

        COPY
        (
            SELECT
                *
            FROM
                read_csv_auto('https://earthquake.usgs.gov/fdsnws/event/1/query?format=csv&starttime=" +:+ start_date +:+ "&endtime=" +:+ end_date +:+ "') AS res
        ) TO 's3://prod/raw/earthquake/" +:+ start_date +:+ "/" +:+ start_date +:+ "_00-00-00.gz.parquet';

        "] ∧
  (start_date = "2025-05-01" →
   trace_targets (run ak sk db context).1 =
     ["s3://prod/raw/earthquake/2025-05-01/2025-05-01_00-00-00.gz.parquet"]) ∧
  (∀ ak' sk' db' (context' : gmap string object) end_date',
     get_dates context' = Ok (start_date, end_date') →
     connect_raises db' = None →
     trace_targets (run ak' sk' db' context').1 =
     trace_targets (run ak sk db context).1).
Proof.
  intros Hd Hc.
  pose proof (run_targets ak sk db context start_date end_date Hd Hc) as Ht.
  split; [exact Ht|]. split; [reflexivity|]. split; [|split].
  - rewrite (run_sql_text ak sk db context start_date end_date Hd Hc).
    by rewrite query_is_fstring.
  - intros ->. exact Ht.
  - intros ak' sk' db' context' end_date' Hd' Hc'.
    rewrite Ht. exact (run_targets ak' sk' db' context' start_date end_date' Hd' Hc').
Qed.

Lemma target_path_determined_witness :
  trace_targets (run "AK" "SK" db_ok ctx_may1).1 = [s3_path "raw" "earthquake" "2025-05-01"] ∧
  trace_targets (run "AK" "SK" db_ok ctx_may1).1 =
    ["s3://prod/raw/earthquake/2025-05-01/2025-05-01_00-00-00.gz.parquet"] ∧
  trace_targets (run "other" "keys" db_http_error ctx_may1_to_may3).1 =
    trace_targets (run "AK" "SK" db_ok ctx_may1).1 ∧
  render <$> trace_scripts (run "AK" "SK" db_ok ctx_may1).1 =
    ["--sql
        SET TIMEZONE='UTC';
        INSTALL httpfs;
        LOAD httpfs;
        SET s3_url_style = 'path';
        SET s3_endpoint = 'minio:9000';
        SET s3_access_key_id = 'AK';
        SET s3_secret_access_key = 'SK';
        SET s3_use_ssl = FALSE;

        COPY
        (
            SELECT
                *
            FROM
                read_csv_auto('https://earthquake.usgs.gov/fdsnws/event/1/query?format=csv&starttime=2025-05-01&endtime=2025-05-02') AS res
        ) TO 's3://prod/raw/earthquake/2025-05-01/2025-05-01_00-00-00.gz.parquet';

        "].
Proof.
  assert (Hd : get_dates ctx_may1 = Ok ("2025-05-01", "2025-05-02"))
    by (vm_compute; reflexivity).
  assert (Hc : connect_raises db_ok = None) by reflexivity.
  destruct (target_path_determined "AK" "SK" db_ok ctx_may1 _ _ Hd Hc)
    as (H1 & _ & Htext & H2 & H3).
  split; [exact H1|]. split; [exact (H2 eq_refl)|]. split; [|exact Htext].
  apply (H3 "other" "keys" db_http_error ctx_may1_to_may3 "2025-05-03");
    [vm_compute; reflexivity | reflexivity].
Defined.

(** C2: a run that reaches DuckDB reads exactly one remote resource, the
    fixed endpoint with start_date and end_date put verbatim after
    starttime= and endtime=, and the text it hands to [con.sql] is the
    f-string of the source with that URL, in quotes, as the argument of
    read_csv_auto; for the interval (2025-05-01, 2025-05-02) the URL is
    https://earthquake.usgs.gov/fdsnws/event/1/query?format=csv&starttime=2025-05-01&endtime=2025-05-02. *)
Theorem remote_url_of_run (ak sk : string) (db : DuckDB)
    (context : gmap string object) (start_date end_date : string) :
  get_dates context = Ok (start_date, end_date) →
  connect_raises db = None →
  trace_sources (run ak sk db context).1 =
    ["https://earthquake.usgs.gov/fdsnws/event/1/query?format=csv"
     +:+ "&starttime=" +:+ start_date +:+ "&endtime=" +:+ end_date] ∧
  render <$> trace_scripts (run ak sk db context).1 =
    ["--sql
        SET TIMEZONE='UTC';
        INSTALL httpfs;
        LOAD httpfs;
        SET s3_url_style = 'path';
        SET s3_endpoint = 'minio:9000';
        SET s3_access_key_id = '" +:+ ak +:+ "';
        SET s3_secret_access_key = '" +:+ sk +:+ "';
        SET s3_use_ssl = FALSE;

        COPY
        (
            SELECT
                *
            FROM
                read_csv_auto('https://earthquake.usgs.gov/fdsnws/event/1/query?format=csv&starttime=" +:+ start_date +:+ "&endtime=" +:+ end_date +:+ "') AS res
        ) TO 's3://prod/raw/earthquake/" +:+ start_date +:+ "/" +:+ start_date +:+ "_00-00-00.gz.parquet';

        "] ∧
  (start_date = "2025-05-01" → end_date = "2025-05-02" →
   trace_sources (run ak sk db context).1 =
     ["https://earthquake.usgs.gov/fdsnws/event/1/query?format=csv&starttime=2025-05-01&endtime=2025-05-02"] ∧
   render <$> trace_scripts (run ak sk db context).1 =
     ["--sql
        SET TIMEZONE='UTC';
        INSTALL httpfs;
        LOAD httpfs;
        SET s3_url_style = 'path';
        SET s3_endpoint = 'minio:9000';
        SET s3_access_key_id = '" +:+ ak +:+ "';
        SET s3_secret_access_key = '" +:+ sk +:+ "';
        SET s3_use_ssl = FALSE;

        COPY
        (
            SELECT
                *
            FROM
                read_csv_auto('https://earthquake.usgs.gov/fdsnws/event/1/query?format=csv&starttime=" +:+ "2025-05-01" +:+ "&endtime=" +:+ "2025-05-02" +:+ "') AS res
        ) TO 's3://prod/raw/earthquake/" +:+ "2025-05-01" +:+ "/" +:+ "2025-05-01" +:+ "_00-00-00.gz.parquet';

        "]).
Proof.
  intros Hd Hc.
  pose proof (run_sources ak sk db context start_date end_date Hd Hc) as Hs.
  assert (Htext : render <$> trace_scripts (run ak sk db context).1 =
                  [query ak sk start_date end_date]) by (by apply run_sql_text).
  rewrite query_is_fstring in Htext.
  split; [exact Hs|]. split; [exact Htext|].
  intros -> ->. split; [exact Hs | exact Htext].
Qed.

Lemma remote_url_of_run_witness :
  trace_sources (run "AK" "SK" db_ok ctx_may1).1 =
    ["https://earthquake.usgs.gov/fdsnws/event/1/query?format=csv&starttime=2025-05-01&endtime=2025-05-02"] ∧
  render <$> trace_scripts (run "AK" "SK" db_ok ctx_may1).1 =
    ["--sql
        SET TIMEZONE='UTC';
        INSTALL httpfs;
        LOAD httpfs;
        SET s3_url_style = 'path';
        SET s3_endpoint = 'minio:9000';
        SET s3_access_key_id = 'AK';
        SET s3_secret_access_key = 'SK';
        SET s3_use_ssl = FALSE;

        COPY
        (
            SELECT
                *
            FROM
                read_csv_auto('https://earthquake.usgs.gov/fdsnws/event/1/query?format=csv&starttime=2025-05-01&endtime=2025-05-02') AS res
        ) TO 's3://prod/raw/earthquake/2025-05-01/2025-05-01_00-00-00.gz.parquet';

        "].
Proof.
  assert (Hd : get_dates ctx_may1 = Ok ("2025-05-01", "2025-05-02"))
    by (vm_compute; reflexivity).
  assert (Hc : connect_raises db_ok = None) by reflexivity.
  destruct (remote_url_of_run "AK" "SK" db_ok ctx_may1 _ _ Hd Hc) as (_ & _ & H).
  exact (H eq_refl eq_refl).
Defined.

(** ** Which calls a run reaches *)

(** Case analysis on the shape of a run, naming what the shape knows. *)
Ltac run_inv :=
  let H := fresh "Hshape" in
  match goal with
  | |- context [run ?ak ?sk ?db ?c] => pose proof (run_cases ak sk db c) as H
  end;
  inversion H as [e Hd Hrun | sd ed x Hd Hc Hrun | sd ed x Hd Hc Hs Hrun
                 | sd ed x Hd Hc Hs Hx Hrun | sd ed Hd Hc Hs Hx Hrun];
  clear H.

Ltac not_in_trace :=
  let H := fresh in
  intros H; unfold complete, upto_close, upto_sql, upto_connect in H; simpl in H;
  repeat (apply elem_of_cons in H as [H|H]; [discriminate H|]);
  by apply elem_of_nil in H.

Lemma close_in_upto_close ak sk sd ed : ConClose ∈ upto_close ak sk sd ed.
Proof. unfold upto_close. apply elem_of_app. right. apply list_elem_of_singleton. reflexivity. Qed.

Lemma close_in_complete ak sk sd ed : ConClose ∈ complete ak sk sd ed.
Proof. unfold complete. apply elem_of_app. left. apply close_in_upto_close. Qed.

(** C3, as the code has it: [con.close()] is reached exactly when the
    dates were derived, [duckdb.connect()] returned and the statement of
    step 5 returned.  When the statement raises, the exception leaves the
    task before [con.close()]: the task has no [try]/[finally] and no
    [with] block around the session. *)
Theorem close_reached_iff (ak sk : string) (db : DuckDB) (context : gmap string object) :
  ConClose ∈ (run ak sk db context).1 ↔
  ∃ start_date end_date,
    get_dates context = Ok (start_date, end_date) ∧
    connect_raises db = None ∧
    sql_raises db (query ak sk start_date end_date) = None.
Proof.
  run_inv; simpl.
  - split; [by intros ?%elem_of_nil | intros (? & ? & ? & _); congruence].
  - split; [not_in_trace | intros (? & ? & ? & ? & _); congruence].
  - split; [not_in_trace|].
    intros (sd' & ed' & Hd' & _ & Hs'). rewrite Hd in Hd'. congruence.
  - split; [by eauto 6 | intros _; apply close_in_upto_close].
  - split; [by eauto 6 | intros _; apply close_in_complete].
Qed.

(** C3, counterexample to the claim as stated: the endpoint answers 400,
    the session was opened, the run fails, and [con.close()] was never
    called. *)
Lemma session_left_open_on_error :
  run "AK" "SK" db_http_error ctx_may1 =
    ([ LoggingInfo "💻 Start load for dates: 2025-05-01/2025-05-02";
       DuckdbConnect;
       ConSql (script "AK" "SK" "2025-05-01" "2025-05-02") ], Err http_error) ∧
  DuckdbConnect ∈ (run "AK" "SK" db_http_error ctx_may1).1 ∧
  ConClose ∉ (run "AK" "SK" db_http_error ctx_may1).1.
Proof.
  assert (Hrun : run "AK" "SK" db_http_error ctx_may1 =
            (upto_sql "AK" "SK" "2025-05-01" "2025-05-02", Err http_error)).
  { apply run_sql_raises; [vm_compute; reflexivity | reflexivity | reflexivity]. }
  rewrite Hrun. split; [reflexivity|]. simpl. split.
  - unfold upto_sql, upto_connect. set_solver.
  - not_in_trace.
Qed.

(** ** Exceptions *)

(** C5: whatever step raises, the run ends with that very exception: a
    failure of [get_dates] (a missing key, a failing [format]), of
    [duckdb.connect], of the script (network, data, storage) or of
    [con.close]; and the run ends normally only when no step raised. *)
Theorem exceptions_propagate (ak sk : string) (db : DuckDB) (context : gmap string object) :
  (∀ e, get_dates context = Err e → (run ak sk db context).2 = Err e) ∧
  (context !! "data_interval_start" = None →
     (run ak sk db context).2 = Err (KeyError "data_interval_start")) ∧
  (∀ sd ed x, get_dates context = Ok (sd, ed) →
     connect_raises db = Some x → (run ak sk db context).2 = Err x) ∧
  (∀ sd ed x, get_dates context = Ok (sd, ed) →
     connect_raises db = None → sql_raises db (query ak sk sd ed) = Some x →
     (run ak sk db context).2 = Err x) ∧
  (∀ sd ed x, get_dates context = Ok (sd, ed) →
     connect_raises db = None → sql_raises db (query ak sk sd ed) = None →
     close_raises db = Some x → (run ak sk db context).2 = Err x) ∧
  ((run ak sk db context).2 = Ok tt ↔
     ∃ sd ed, get_dates context = Ok (sd, ed) ∧ connect_raises db = None ∧
       sql_raises db (query ak sk sd ed) = None ∧ close_raises db = None).
Proof.
  split; [|split; [|split; [|split; [|split]]]].
  - intros e Hd. by rewrite (run_no_dates ak sk db context e Hd).
  - intros Hk.
    assert (Hd : get_dates context = Err (KeyError "data_interval_start")).
    { unfold get_dates, getitem. by rewrite Hk. }
    by rewrite (run_no_dates ak sk db context _ Hd).
  - intros sd ed x Hd Hc. by rewrite (run_connect_raises ak sk db context sd ed Hd x Hc).
  - intros sd ed x Hd Hc Hs.
    by rewrite (run_sql_raises ak sk db context sd ed Hd x Hc Hs).
  - intros sd ed x Hd Hc Hs Hx.
    by rewrite (run_close_raises ak sk db context sd ed Hd x Hc Hs Hx).
  - split.
    + run_inv; simpl; try discriminate. eauto 8.
    + intros (sd & ed & Hd & Hc & Hs & Hx).
      by rewrite (run_succeeds ak sk db context sd ed Hd Hc Hs Hx).
Qed.

Example http_error_propagates :
  (run "AK" "SK" db_http_error ctx_may1).2 = Err http_error.
Proof. vm_compute. reflexivity. Qed.

Example connect_error_propagates :
  run "AK" "SK" db_connect_error ctx_may1 =
  ([ LoggingInfo "💻 Start load for dates: 2025-05-01/2025-05-02";
     DuckdbConnect ], Err io_error).
Proof. vm_compute. reflexivity. Qed.

Example close_error_propagates :
  run "AK" "SK" db_close_error ctx_may1 =
  ([ LoggingInfo "💻 Start load for dates: 2025-05-01/2025-05-02";
     DuckdbConnect;
     ConSql (script "AK" "SK" "2025-05-01" "2025-05-02");
     ConClose ], Err io_error).
Proof. vm_compute. reflexivity. Qed.

Example missing_interval_propagates :
  run "AK" "SK" db_ok ctx_empty = ([], Err (KeyError "data_interval_start")).
Proof. vm_compute. reflexivity. Qed.

(** ** The context *)

Lemma get_dates_depends_on_interval (c1 c2 : gmap string object) :
  c1 !! "data_interval_start" = c2 !! "data_interval_start" →
  c1 !! "data_interval_end" = c2 !! "data_interval_end" →
  get_dates c1 = get_dates c2.
Proof. intros Hs He. unfold get_dates, getitem. by rewrite Hs, He. Qed.

(** C9: two contexts that agree on [data_interval_start] and
    [data_interval_end] give the same run, with the same credentials and
    DuckDB: the same calls in the same order, hence the same log lines and
    the same SQL text (remote URL and storage path included), and the same
    outcome.  No other key of the context is read. *)
Theorem context_noninterference (ak sk : string) (db : DuckDB)
    (c1 c2 : gmap string object) :
  c1 !! "data_interval_start" = c2 !! "data_interval_start" →
  c1 !! "data_interval_end" = c2 !! "data_interval_end" →
  run ak sk db c1 = run ak sk db c2 ∧
  trace_logs (run ak sk db c1).1 = trace_logs (run ak sk db c2).1 ∧
  render <$> trace_scripts (run ak sk db c1).1 =
    render <$> trace_scripts (run ak sk db c2).1.
Proof.
  intros Hs He.
  assert (Hrun : run ak sk db c1 = run ak sk db c2).
  { unfold run, get_and_transfer_api_data_to_s3.
    by rewrite (get_dates_depends_on_interval c1 c2 Hs He). }
  by rewrite Hrun.
Qed.

Lemma context_noninterference_witness :
  run "AK" "SK" db_ok ctx_may1 = run "AK" "SK" db_ok ctx_may1_run_id ∧
  trace_logs (run "AK" "SK" db_ok ctx_may1).1 =
    trace_logs (run "AK" "SK" db_ok ctx_may1_run_id).1 ∧
  render <$> trace_scripts (run "AK" "SK" db_ok ctx_may1).1 =
    render <$> trace_scripts (run "AK" "SK" db_ok ctx_may1_run_id).1.
Proof.
  apply (context_noninterference "AK" "SK" db_ok ctx_may1 ctx_may1_run_id).
  - vm_compute. reflexivity.
  - vm_compute. reflexivity.
Defined.

(** ** A successful run *)

Lemma run_ok_inv (ak sk : string) (db : DuckDB) (context : gmap string object) :
  ∀ tr, run ak sk db context = (tr, Ok tt) →
  ∃ sd ed, get_dates context = Ok (sd, ed) ∧ tr = complete ak sk sd ed.
Proof.
  run_inv; intros tr Heq; try discriminate Heq.
  injection Heq as <-. eauto.
Qed.

Lemma complete_effects (ak sk sd ed : string) :
  trace_effects (complete ak sk sd ed) =
  [ EmitLog (start_message sd ed);
    InstallExtension "httpfs";
    NetworkRead (api_url sd ed);
    StorageWrite (s3_path LAYER SOURCE sd);
    EmitLog (success_message sd) ].
Proof. reflexivity. Qed.

Lemma start_message_has_start_date (sd ed : string) :
  Str.contains sd (start_message sd ed).
Proof. exists "💻 Start load for dates: ", ("/" +:+ ed). reflexivity. Qed.

Lemma success_message_has_start_date (sd : string) :
  Str.contains sd (success_message sd).
Proof.
  exists "✅ Download for date success: ", "".
  by rewrite StrFacts.app_nil_r.
Qed.

(** C7, as the code has it: a successful run makes exactly two
    [logging.info] calls, the first and the last call of the run, the
    first starting with the marker 💻 and the second with ✅, both
    containing start_date; between them it opens an in-memory session,
    hands it one script and closes it.  Outside the process the run has
    five effects, in this order: the start line, the installation of the
    httpfs extension, one network read of the remote URL, one write of the
    storage object, the success line. *)
Theorem successful_run_effects (ak sk : string) (db : DuckDB)
    (context : gmap string object) (tr : list event) :
  run ak sk db context = (tr, Ok tt) →
  ∃ start_date end_date,
    get_dates context = Ok (start_date, end_date) ∧
    tr = [ LoggingInfo (start_message start_date end_date);
           DuckdbConnect;
           ConSql (script ak sk start_date end_date);
           ConClose;
           LoggingInfo (success_message start_date) ] ∧
    trace_logs tr = [start_message start_date end_date; success_message start_date] ∧
    String.prefix "💻" (start_message start_date end_date) = true ∧
    String.prefix "✅" (success_message start_date) = true ∧
    Str.contains start_date (start_message start_date end_date) ∧
    Str.contains start_date (success_message start_date) ∧
    trace_effects tr =
      [ EmitLog (start_message start_date end_date);
        InstallExtension "httpfs";
        NetworkRead (api_url start_date end_date);
        StorageWrite (s3_path "raw" "earthquake" start_date);
        EmitLog (success_message start_date) ].
Proof.
  intros (sd & ed & Hd & ->)%run_ok_inv. exists sd, ed.
  split; [exact Hd|]. split; [reflexivity|]. split; [reflexivity|].
  split; [reflexivity|]. split; [reflexivity|].
  split; [apply start_message_has_start_date|].
  split; [apply success_message_has_start_date|].
  apply complete_effects.
Qed.

Lemma successful_run_effects_witness :
  ∃ start_date end_date,
    get_dates ctx_may1 = Ok (start_date, end_date) ∧
    complete "AK" "SK" "2025-05-01" "2025-05-02" =
         [ LoggingInfo (start_message start_date end_date);
           DuckdbConnect;
           ConSql (script "AK" "SK" start_date end_date);
           ConClose;
           LoggingInfo (success_message start_date) ] ∧
    trace_logs (complete "AK" "SK" "2025-05-01" "2025-05-02") =
      [start_message start_date end_date; success_message start_date] ∧
    String.prefix "💻" (start_message start_date end_date) = true ∧
    String.prefix "✅" (success_message start_date) = true ∧
    Str.contains start_date (start_message start_date end_date) ∧
    Str.contains start_date (success_message start_date) ∧
    trace_effects (complete "AK" "SK" "2025-05-01" "2025-05-02") =
      [ EmitLog (start_message start_date end_date);
        InstallExtension "httpfs";
        NetworkRead (api_url start_date end_date);
        StorageWrite (s3_path "raw" "earthquake" start_date);
        EmitLog (success_message start_date) ].
Proof.
  apply (successful_run_effects "AK" "SK" db_ok ctx_may1).
  vm_compute. reflexivity.
Defined.

(** C7, counterexample to the claim as stated: the run of 1 May succeeds
    and its effects are not two log lines, one network read and one
    storage write only: the script also installs the httpfs extension. *)
Lemma install_is_a_side_effect :
  (run "AK" "SK" db_ok ctx_may1).2 = Ok tt ∧
  InstallExtension "httpfs" ∈ trace_effects (run "AK" "SK" db_ok ctx_may1).1 ∧
  ¬ ∃ m1 m2 url path,
      trace_effects (run "AK" "SK" db_ok ctx_may1).1 =
      [EmitLog m1; NetworkRead url; StorageWrite path; EmitLog m2].
Proof.
  assert (Hrun : run "AK" "SK" db_ok ctx_may1 =
            (complete "AK" "SK" "2025-05-01" "2025-05-02", Ok tt)).
  { apply run_succeeds; [vm_compute; reflexivity | reflexivity ..]. }
  rewrite Hrun. cbn [fst snd]. rewrite complete_effects.
  split; [reflexivity|]. split.
  - apply elem_of_cons. right. apply elem_of_cons. by left.
  - intros (m1 & m2 & url & path & H). discriminate H.
Qed.

(** ** The end of the interval *)

(** C10, as the code has it: end_date appears in the endtime parameter of
    the remote URL and in the start log line, and nowhere else.  Two runs
    with the same start_date and credentials hand DuckDB scripts with the
    same session configuration and the same target path, whose URLs differ
    only after endtime=; when both succeed their success lines are equal
    and their start lines differ only after the slash. *)
Theorem end_date_frame (ak sk : string) (db1 db2 : DuckDB)
    (c1 c2 : gmap string object) (start_date end1 end2 : string) :
  get_dates c1 = Ok (start_date, end1) →
  get_dates c2 = Ok (start_date, end2) →
  connect_raises db1 = None → connect_raises db2 = None →
  let url_upto_end :=
    "https://earthquake.usgs.gov/fdsnws/event/1/query?format=csv&starttime="
    +:+ start_date +:+ "&endtime=" in
  let path := s3_path "raw" "earthquake" start_date in
  trace_scripts (run ak sk db1 c1).1 =
    [session_config ak sk ++ [CopyCsvTo (url_upto_end +:+ end1) path]] ∧
  trace_scripts (run ak sk db2 c2).1 =
    [session_config ak sk ++ [CopyCsvTo (url_upto_end +:+ end2) path]] ∧
  trace_targets (run ak sk db1 c1).1 = trace_targets (run ak sk db2 c2).1 ∧
  ((run ak sk db1 c1).2 = Ok tt → (run ak sk db2 c2).2 = Ok tt →
   trace_logs (run ak sk db1 c1).1 =
     ["💻 Start load for dates: " +:+ start_date +:+ "/" +:+ end1;
      success_message start_date] ∧
   trace_logs (run ak sk db2 c2).1 =
     ["💻 Start load for dates: " +:+ start_date +:+ "/" +:+ end2;
      success_message start_date]).
Proof.
  intros Hd1 Hd2 Hc1 Hc2 url_upto_end path.
  assert (Hurl : ∀ e, api_url start_date e = url_upto_end +:+ e).
  { intros e. unfold api_url, url_upto_end. by rewrite !StrFacts.app_assoc. }
  split; [|split; [|split]].
  - rewrite (run_scripts ak sk db1 c1 _ _ Hd1 Hc1). unfold script. by rewrite Hurl.
  - rewrite (run_scripts ak sk db2 c2 _ _ Hd2 Hc2). unfold script. by rewrite Hurl.
  - by rewrite (run_targets ak sk db1 c1 _ _ Hd1 Hc1),
               (run_targets ak sk db2 c2 _ _ Hd2 Hc2).
  - intros H1 H2.
    destruct (run ak sk db1 c1) as [tr1 r1] eqn:E1.
    destruct (run ak sk db2 c2) as [tr2 r2] eqn:E2.
    simpl in *. subst r1 r2.
    apply run_ok_inv in E1 as (sd1 & ed1 & Hd1' & ->).
    apply run_ok_inv in E2 as (sd2 & ed2 & Hd2' & ->).
    rewrite Hd1 in Hd1'. rewrite Hd2 in Hd2'.
    injection Hd1' as <- <-. injection Hd2' as <- <-. done.
Qed.

Lemma end_date_frame_witness :
  trace_targets (run "AK" "SK" db_ok ctx_may1).1 =
  trace_targets (run "AK" "SK" db_ok ctx_may1_to_may3).1.
Proof.
  refine (proj1 (proj2 (proj2
    (end_date_frame "AK" "SK" db_ok db_ok ctx_may1 ctx_may1_to_may3
       "2025-05-01" "2025-05-02" "2025-05-03" _ _ _ _)))).
  - vm_compute. reflexivity.
  - vm_compute. reflexivity.
  - reflexivity.
  - reflexivity.
Defined.

(** C10, counterexample to the claim as stated: two successful runs with
    the same start_date and different end_date differ in more than the
    endtime parameter of the URL: their start log lines differ. *)
Lemma end_date_reaches_start_log :
  get_dates ctx_may1 = Ok ("2025-05-01", "2025-05-02") ∧
  get_dates ctx_may1_to_may3 = Ok ("2025-05-01", "2025-05-03") ∧
  trace_logs (run "AK" "SK" db_ok ctx_may1).1 =
    ["💻 Start load for dates: 2025-05-01/2025-05-02";
     "✅ Download for date success: 2025-05-01"] ∧
  trace_logs (run "AK" "SK" db_ok ctx_may1_to_may3).1 =
    ["💻 Start load for dates: 2025-05-01/2025-05-03";
     "✅ Download for date success: 2025-05-01"] ∧
  trace_logs (run "AK" "SK" db_ok ctx_may1).1 ≠
  trace_logs (run "AK" "SK" db_ok ctx_may1_to_may3).1.
Proof.
  split; [vm_compute; reflexivity|]. split; [vm_compute; reflexivity|].
  assert (H1 : trace_logs (run "AK" "SK" db_ok ctx_may1).1 =
    ["💻 Start load for dates: 2025-05-01/2025-05-02";
     "✅ Download for date success: 2025-05-01"]) by (vm_compute; reflexivity).
  assert (H2 : trace_logs (run "AK" "SK" db_ok ctx_may1_to_may3).1 =
    ["💻 Start load for dates: 2025-05-01/2025-05-03";
     "✅ Download for date success: 2025-05-01"]) by (vm_compute; reflexivity).
  split; [exact H1|]. split; [exact H2|].
  rewrite H1, H2. discriminate.
Qed.

(** ** The schedule *)

Lemma daily_at_five (t : DateTime) (weekday : Z) :
  fires (mkCron (At 0) (At 5) Every Every Every) t weekday = true ↔
  hour t = 5%Z ∧ minute t = 0%Z.
Proof.
  unfold fires. simpl. rewrite !andb_true_r, andb_true_iff, !bool_decide_eq_true.
  intuition congruence.
Qed.

(** C8: the DAG is triggered by the cron expression 0 5 * * *, which
    fires at 05:00 of every day and at no other minute; it allows one
    active run; a failed task is retried 3 times, one hour (3600 seconds)
    apart. *)
Theorem schedule_contract :
  (∃ c, parse_cron (schedule_interval dag) = Some c ∧
        ∀ t weekday, fires c t weekday = true ↔ hour t = 5%Z ∧ minute t = 0%Z) ∧
  max_active_runs dag = 1%Z ∧
  max_active_tasks dag = 1%Z ∧
  retries (default_args dag) = 3%Z ∧
  retry_delay (default_args dag) = mkDuration 0 1 0 0 ∧
  total_seconds (retry_delay (default_args dag)) = 3600%Z.
Proof.
  split; [|done].
  exists (mkCron (At 0) (At 5) Every Every Every).
  split; [reflexivity | apply daily_at_five].
Qed.

Example fires_may1_0500 :
  ∀ c, parse_cron (schedule_interval dag) = Some c →
       fires c may1_0500 4 = true ∧ fires c may1 4 = false.
Proof. intros c [= <-]. split; reflexivity. Qed.

(** * Further properties of the module *)

(** ** Splitting strings *)

Module StrSplit.

Lemma length_app (s t : string) :
  String.length (s +:+ t) = String.length s + String.length t.
Proof.
  induction s as [|c s IH]; [reflexivity|].
  rewrite StrFacts.app_cons. simpl. by rewrite IH.
Qed.

(** Two splits of one string at the same length are the same split. *)
Lemma app_eq_length (a b x y : string) :
  a +:+ x = b +:+ y → String.length a = String.length b → a = b ∧ x = y.
Proof.
  revert b. induction a as [|c a IH]; intros [|d b] Heq Hlen;
    try discriminate Hlen.
  - by split.
  - rewrite !StrFacts.app_cons in Heq. injection Heq as -> Heq.
    injection Hlen as Hlen. destruct (IH b Heq Hlen) as [-> ->]. by split.
Qed.

(** A string free of a character ends at the first occurrence of that
    character. *)
Lemma app_delim_inj (c : ascii) (a b x y : string) :
  free_of c a = true → free_of c b = true →
  a +:+ String c x = b +:+ String c y → a = b ∧ x = y.
Proof.
  revert b. induction a as [|d a IH]; intros [|e b] Ha Hb Heq.
  - injection Heq as ->. by split.
  - rewrite StrFacts.app_cons in Heq. injection Heq as <- _.
    simpl in Hb. by rewrite Ascii.eqb_refl in Hb.
  - rewrite StrFacts.app_cons in Heq. injection Heq as -> _.
    simpl in Ha. by rewrite Ascii.eqb_refl in Ha.
  - rewrite !StrFacts.app_cons in Heq. injection Heq as -> Heq.
    simpl in Ha, Hb. apply andb_true_iff in Ha as [_ Ha], Hb as [_ Hb].
    destruct (IH b Ha Hb Heq) as [-> ->]. by split.
Qed.

Lemma free_of_app (c : ascii) (s t : string) :
  free_of c (s +:+ t) = free_of c s && free_of c t.
Proof.
  induction s as [|d s IH]; [reflexivity|].
  rewrite StrFacts.app_cons. simpl. by rewrite IH, andb_assoc.
Qed.

End StrSplit.

(** ** The order of failures in [get_dates] *)

(** X1: [get_dates] reports the first failure in the order of the source:
    the lookup of [data_interval_start], its [format], the lookup of
    [data_interval_end], its [format].  A later failure never masks an
    earlier one, and the call succeeds exactly when all four steps do. *)
Theorem get_dates_error_order (context : gmap string object) :
  (context !! "data_interval_start" = None →
     get_dates context = Err (KeyError "data_interval_start")) ∧
  (∀ s x, context !! "data_interval_start" = Some s →
     call_format s "YYYY-MM-DD" = Err x → get_dates context = Err x) ∧
  (∀ s sd, context !! "data_interval_start" = Some s →
     call_format s "YYYY-MM-DD" = Ok sd →
     context !! "data_interval_end" = None →
     get_dates context = Err (KeyError "data_interval_end")) ∧
  (∀ s sd e x, context !! "data_interval_start" = Some s →
     call_format s "YYYY-MM-DD" = Ok sd →
     context !! "data_interval_end" = Some e →
     call_format e "YYYY-MM-DD" = Err x → get_dates context = Err x) ∧
  (∀ sd ed, get_dates context = Ok (sd, ed) ↔
     ∃ s e, context !! "data_interval_start" = Some s ∧
            call_format s "YYYY-MM-DD" = Ok sd ∧
            context !! "data_interval_end" = Some e ∧
            call_format e "YYYY-MM-DD" = Ok ed).
Proof.
  unfold get_dates, getitem.
  split; [|split; [|split; [|split]]].
  - by intros ->.
  - intros s x -> Hs. simpl. by rewrite Hs.
  - intros s sd -> Hs He. simpl. rewrite Hs. simpl. by rewrite He.
  - intros s sd e x -> Hs -> He. simpl. rewrite Hs. simpl. by rewrite He.
  - intros sd ed. split.
    + destruct (context !! "data_interval_start") as [s|]; [|discriminate]. simpl.
      destruct (call_format s "YYYY-MM-DD") as [sd'|] eqn:Hs; [|discriminate]. simpl.
      destruct (context !! "data_interval_end") as [e|]; [|discriminate]. simpl.
      destruct (call_format e "YYYY-MM-DD") as [ed'|] eqn:He; [|discriminate]. simpl.
      intros [= <- <-]. by exists s, e.
    + intros (s & e & -> & Hs & -> & He). simpl. rewrite Hs. simpl. by rewrite He.
Qed.

Example both_keys_missing :
  get_dates ctx_empty = Err (KeyError "data_interval_start").
Proof. reflexivity. Qed.

Example end_key_missing :
  get_dates (<["data_interval_start" := VDateTime may1]> ∅) =
  Err (KeyError "data_interval_end").
Proof. vm_compute. reflexivity. Qed.

(** ** Only the calendar day matters *)

Lemma format_token_same_day (d1 d2 : DateTime) (t : token) :
  same_day d1 d2 → format_token d1 t = format_token d2 t.
Proof. intros (Hy & Hm & Hd). destruct t; simpl; congruence. Qed.

(** Whatever the format string, of the tokens the module knows. *)
Lemma format_same_day (d1 d2 : DateTime) (fmt : string) :
  same_day d1 d2 → format d1 fmt = format d2 fmt.
Proof.
  intros Hsame. unfold format.
  induction (tokenize fmt) as [|t ts IH]; [reflexivity|].
  simpl. by rewrite IH, (format_token_same_day d1 d2 t Hsame).
Qed.

(** X2: the time of day and the time zone label of the interval bounds do
    not reach the run: two contexts whose bounds fall on the same calendar
    days give the same dates and, with the same credentials and DuckDB,
    the same run. *)
Theorem same_days_same_run (ak sk : string) (db : DuckDB)
    (c1 c2 : gmap string object) (s1 s2 e1 e2 : DateTime) :
  c1 !! "data_interval_start" = Some (VDateTime s1) →
  c1 !! "data_interval_end" = Some (VDateTime e1) →
  c2 !! "data_interval_start" = Some (VDateTime s2) →
  c2 !! "data_interval_end" = Some (VDateTime e2) →
  same_day s1 s2 → same_day e1 e2 →
  get_dates c1 = get_dates c2 ∧ run ak sk db c1 = run ak sk db c2.
Proof.
  intros Hs1 He1 Hs2 He2 Hs He.
  assert (Hd : get_dates c1 = get_dates c2).
  { rewrite (get_dates_datetimes c1 s1 e1 Hs1 He1),
            (get_dates_datetimes c2 s2 e2 Hs2 He2).
    by rewrite (format_same_day s1 s2 _ Hs), (format_same_day e1 e2 _ He). }
  split; [exact Hd|].
  unfold run, get_and_transfer_api_data_to_s3. by rewrite Hd.
Qed.

Lemma same_days_same_run_witness :
  get_dates ctx_may1 = get_dates ctx_may1_evening ∧
  run "AK" "SK" db_ok ctx_may1 = run "AK" "SK" db_ok ctx_may1_evening.
Proof.
  apply (same_days_same_run "AK" "SK" db_ok ctx_may1 ctx_may1_evening
           may1 may1_evening may2 may2_evening).
  - vm_compute. reflexivity.
  - vm_compute. reflexivity.
  - vm_compute. reflexivity.
  - vm_compute. reflexivity.
  - unfold same_day. simpl. lia.
  - unfold same_day. simpl. lia.
Defined.

(** ** One object per calendar day *)

(** The path determines the date string in it. *)
Lemma s3_path_inj (layer source a b : string) :
  s3_path layer source a = s3_path layer source b → a = b.
Proof.
  unfold s3_path. intros H.
  do 5 apply (inj (String.app _)) in H.
  assert (Hlen : String.length a = String.length b).
  { apply (f_equal String.length) in H.
    rewrite !StrSplit.length_app in H. simpl in H. lia. }
  by destruct (StrSplit.app_eq_length _ _ _ _ H Hlen).
Qed.

Lemma format_iso_inj (d1 d2 : DateTime) :
  valid_date d1 → (1000 ≤ year d1)%Z → valid_date d2 → (1000 ≤ year d2)%Z →
  format d1 "YYYY-MM-DD" = format d2 "YYYY-MM-DD" → same_day d1 d2.
Proof.
  intros V1 Y1 V2 Y2 Heq.
  destruct (format_iso_date d1 V1 Y1) as [_ R1].
  destruct (format_iso_date d2 V2 Y2) as [_ R2].
  rewrite Heq, R2 in R1. injection R1 as Hy Hm Hd. by repeat split.
Qed.

(** X3: two runs that reach DuckDB write to the same object exactly when
    their intervals start on the same calendar day (for dates of the
    calendar with a year of four digits): different days never meet on one
    path, whatever the credentials, the end of the interval and the
    answers of DuckDB. *)
Theorem same_object_iff_same_day (ak1 sk1 ak2 sk2 : string) (db1 db2 : DuckDB)
    (c1 c2 : gmap string object) (s1 s2 e1 e2 : DateTime) :
  c1 !! "data_interval_start" = Some (VDateTime s1) →
  c1 !! "data_interval_end" = Some (VDateTime e1) →
  c2 !! "data_interval_start" = Some (VDateTime s2) →
  c2 !! "data_interval_end" = Some (VDateTime e2) →
  valid_date s1 → (1000 ≤ year s1)%Z → valid_date s2 → (1000 ≤ year s2)%Z →
  connect_raises db1 = None → connect_raises db2 = None →
  trace_targets (run ak1 sk1 db1 c1).1 = trace_targets (run ak2 sk2 db2 c2).1
  ↔ same_day s1 s2.
Proof.
  intros Hs1 He1 Hs2 He2 V1 Y1 V2 Y2 Hc1 Hc2.
  rewrite (run_targets ak1 sk1 db1 c1 _ _ (get_dates_datetimes c1 s1 e1 Hs1 He1) Hc1).
  rewrite (run_targets ak2 sk2 db2 c2 _ _ (get_dates_datetimes c2 s2 e2 Hs2 He2) Hc2).
  split.
  - intros H.
    assert (Hp : s3_path LAYER SOURCE (format s1 "YYYY-MM-DD") =
                 s3_path LAYER SOURCE (format s2 "YYYY-MM-DD")) by congruence.
    apply s3_path_inj in Hp. by apply format_iso_inj.
  - intros Hsame. by rewrite (format_same_day s1 s2 _ Hsame).
Qed.

Lemma same_object_iff_same_day_witness :
  (trace_targets (run "AK" "SK" db_ok ctx_may1).1 =
   trace_targets (run "other" "keys" db_http_error ctx_may1_evening).1
   ↔ same_day may1 may1_evening) ∧
  (trace_targets (run "AK" "SK" db_ok ctx_may1).1 =
   trace_targets (run "AK" "SK" db_ok ctx_may1_evening).1).
Proof.
  assert (H : trace_targets (run "AK" "SK" db_ok ctx_may1).1 =
              trace_targets (run "other" "keys" db_http_error ctx_may1_evening).1
              ↔ same_day may1 may1_evening).
  { apply (same_object_iff_same_day "AK" "SK" "other" "keys" db_ok db_http_error
             ctx_may1 ctx_may1_evening may1 may1_evening may2 may2_evening).
    - vm_compute. reflexivity.
    - vm_compute. reflexivity.
    - vm_compute. reflexivity.
    - vm_compute. reflexivity.
    - unfold valid_date. simpl. lia.
    - simpl. lia.
    - unfold valid_date. simpl. lia.
    - simpl. lia.
    - reflexivity.
    - reflexivity. }
  split; [exact H|]. vm_compute. reflexivity.
Defined.

(** ** The calls of a run, in order *)

Lemma start_ne_success (sd ed sd' : string) :
  LoggingInfo (success_message sd') ≠ LoggingInfo (start_message sd ed).
Proof.
  intros H. discriminate H.
Qed.

(** X4: the task makes no call at all, neither a log line nor a session,
    exactly when the dates cannot be derived from the context; it then
    ends with the error of [get_dates]. *)
Theorem no_call_iff_no_dates (ak sk : string) (db : DuckDB)
    (context : gmap string object) :
  (∀ e, get_dates context = Err e → run ak sk db context = ([], Err e)) ∧
  ((run ak sk db context).1 = [] →
     ∃ e, get_dates context = Err e ∧ (run ak sk db context).2 = Err e).
Proof.
  split; [apply run_no_dates|].
  run_inv; simpl; try discriminate. by eauto.
Qed.

(** X5: once the dates are derived the task always logs the start line
    and opens a session, and the calls it makes are an initial segment of
    one fixed sequence: start line, connect, script, close, success line.
    It returns normally exactly when it made all five. *)
Theorem calls_in_order (ak sk : string) (db : DuckDB)
    (context : gmap string object) (start_date end_date : string) :
  get_dates context = Ok (start_date, end_date) →
  let all_calls :=
    [ LoggingInfo (start_message start_date end_date);
      DuckdbConnect;
      ConSql (script ak sk start_date end_date);
      ConClose;
      LoggingInfo (success_message start_date) ] in
  [LoggingInfo (start_message start_date end_date); DuckdbConnect]
    `prefix_of` (run ak sk db context).1 ∧
  (run ak sk db context).1 `prefix_of` all_calls ∧
  ((run ak sk db context).2 = Ok tt ↔ (run ak sk db context).1 = all_calls).
Proof.
  intros Hdates all_calls.
  run_inv; rewrite Hdates in Hd; try discriminate Hd;
    injection Hd as <- <-; cbn [fst snd].
  - split; [by exists []|]. split; [by eexists|]. split; discriminate.
  - split; [by eexists|]. split; [by eexists|]. split; discriminate.
  - split; [by eexists|]. split; [by eexists|]. split; discriminate.
  - split; [by eexists|]. split; [by exists []|]. by split.
Qed.

Lemma calls_in_order_witness :
  (run "AK" "SK" db_http_error ctx_may1).1 `prefix_of`
    [ LoggingInfo (start_message "2025-05-01" "2025-05-02");
      DuckdbConnect;
      ConSql (script "AK" "SK" "2025-05-01" "2025-05-02");
      ConClose;
      LoggingInfo (success_message "2025-05-01") ].
Proof.
  refine (proj1 (proj2 (calls_in_order "AK" "SK" db_http_error ctx_may1
                          "2025-05-01" "2025-05-02" _))).
  vm_compute. reflexivity.
Defined.

(** X6: the success line is logged by the runs that return normally and
    by no other: a failed run never reports success. *)
Theorem success_logged_iff_ok (ak sk : string) (db : DuckDB)
    (context : gmap string object) :
  (∃ sd, LoggingInfo (success_message sd) ∈ (run ak sk db context).1) ↔
  (run ak sk db context).2 = Ok tt.
Proof.
  run_inv; cbn [fst snd].
  - split; [|discriminate]. by intros (? & ?%elem_of_nil).
  - split; [|discriminate]. intros (sd' & H).
    unfold upto_connect in H.
    apply elem_of_cons in H as [H|H]; [by apply start_ne_success in H|].
    apply elem_of_cons in H as [H|H]; [discriminate H|]. by apply elem_of_nil in H.
  - split; [|discriminate]. intros (sd' & H).
    unfold upto_sql, upto_connect in H. simpl in H.
    apply elem_of_cons in H as [H|H]; [by apply start_ne_success in H|].
    repeat (apply elem_of_cons in H as [H|H]; [discriminate H|]).
    by apply elem_of_nil in H.
  - split; [|discriminate]. intros (sd' & H).
    unfold upto_close, upto_sql, upto_connect in H. simpl in H.
    apply elem_of_cons in H as [H|H]; [by apply start_ne_success in H|].
    repeat (apply elem_of_cons in H as [H|H]; [discriminate H|]).
    by apply elem_of_nil in H.
  - split; [done|]. intros _. exists sd.
    unfold complete. apply elem_of_app. right. by apply list_elem_of_singleton.
Qed.

(** X7: no script reaches DuckDB, hence no network read and no storage
    write is attempted, exactly when the dates could not be derived or
    [duckdb.connect()] raised. *)
Theorem no_script_iff (ak sk : string) (db : DuckDB) (context : gmap string object) :
  trace_scripts (run ak sk db context).1 = [] ↔
  (∃ e, get_dates context = Err e) ∨ (∃ x, connect_raises db = Some x).
Proof.
  run_inv; cbn [fst snd].
  - split; [by eauto | reflexivity].
  - split; [by eauto | reflexivity].
  - split; [discriminate|]. intros [[e He]|[y Hy]]; congruence.
  - split; [discriminate|]. intros [[e He]|[y Hy]]; congruence.
  - split; [discriminate|]. intros [[e He]|[y Hy]]; congruence.
Qed.

Example connect_error_no_read_no_write :
  trace_effects (run "AK" "SK" db_connect_error ctx_may1).1 =
  [EmitLog "💻 Start load for dates: 2025-05-01/2025-05-02"].
Proof. vm_compute. reflexivity. Qed.

(** ** Where a failure comes from *)

Lemma get_dates_failure_origin (context : gmap string object) (x : exn) :
  get_dates context = Err x →
  x = KeyError "data_interval_start" ∨ x = KeyError "data_interval_end" ∨
  ∃ key o, context !! key = Some o ∧ call_format o "YYYY-MM-DD" = Err x.
Proof.
  unfold get_dates, getitem.
  destruct (context !! "data_interval_start") as [s|] eqn:Ks; simpl;
    [|intros [= <-]; by left].
  destruct (call_format s "YYYY-MM-DD") as [sd|y] eqn:Hs; simpl;
    [|intros [= <-]; right; right; by eauto].
  destruct (context !! "data_interval_end") as [e|] eqn:Ke; simpl;
    [|intros [= <-]; right; by left].
  destruct (call_format e "YYYY-MM-DD") as [ed|y] eqn:He; simpl;
    [discriminate | intros [= <-]; right; right; by eauto].
Qed.

(** X8: the task raises nothing of its own besides the [KeyError] of the
    two interval keys: the exception of a failed run is one of these two,
    or the one raised by the [format] of a context entry, by
    [duckdb.connect()], by DuckDB on the text of this run's script, or by
    [con.close()]. *)
Theorem failure_origin (ak sk : string) (db : DuckDB)
    (context : gmap string object) (exc : exn) :
  (run ak sk db context).2 = Err exc →
  exc = KeyError "data_interval_start" ∨
  exc = KeyError "data_interval_end" ∨
  (∃ key o, context !! key = Some o ∧ call_format o "YYYY-MM-DD" = Err exc) ∨
  connect_raises db = Some exc ∨
  (∃ sd ed, get_dates context = Ok (sd, ed) ∧
            sql_raises db (query ak sk sd ed) = Some exc) ∨
  close_raises db = Some exc.
Proof.
  run_inv; cbn [fst snd]; intros [= <-].
  - destruct (get_dates_failure_origin context e Hd) as [?|[?|?]]; by eauto.
  - by eauto.
  - right; right; right; right; left. by eauto.
  - by eauto 7.
Qed.

Lemma failure_origin_witness :
  http_error = KeyError "data_interval_start" ∨
  http_error = KeyError "data_interval_end" ∨
  (∃ key o, ctx_may1 !! key = Some o ∧ call_format o "YYYY-MM-DD" = Err http_error) ∨
  connect_raises db_http_error = Some http_error ∨
  (∃ sd ed, get_dates ctx_may1 = Ok (sd, ed) ∧
            sql_raises db_http_error (query "AK" "SK" sd ed) = Some http_error) ∨
  close_raises db_http_error = Some http_error.
Proof.
  apply (failure_origin "AK" "SK" db_http_error ctx_may1 http_error).
  vm_compute. reflexivity.
Defined.

(** ** The credentials *)


(** ** The script text and its parameters *)

Lemma app_literal_delim_inj (c : ascii) (l a b x y : string) :
  free_of c a = true → free_of c b = true →
  a +:+ String c l +:+ x = b +:+ String c l +:+ y → a = b ∧ x = y.
Proof.
  intros Ha Hb H. rewrite !StrFacts.app_cons in H.
  destruct (StrSplit.app_delim_inj c a b _ _ Ha Hb H) as [-> H'].
  split; [reflexivity|]. by apply (inj (String.app l)) in H'.
Qed.

(** X10: the f-string puts its parameters into the text as they are, and
    for parameters free of single quotes and ampersands the text
    determines them: two runs with the same script text have the same
    credentials and the same dates. *)
Theorem query_inj (ak sk sd ed ak' sk' sd' ed' : string) :
  plain ak = true → plain sk = true → plain sd = true → plain ed = true →
  plain ak' = true → plain sk' = true → plain sd' = true → plain ed' = true →
  query ak sk sd ed = query ak' sk' sd' ed' →
  ak = ak' ∧ sk = sk' ∧ sd = sd' ∧ ed = ed'.
Proof.
  unfold plain. rewrite !andb_true_iff.
  intros [Qak _] [Qsk _] [_ Asd] [Qed_ _] [Qak' _] [Qsk' _] [_ Asd'] [Qed' _] H.
  rewrite !query_is_fstring in H.
  apply (inj (String.app _)) in H.
  apply (app_literal_delim_inj "'" _ ak ak') in H as [-> H]; [|done..].
  apply (app_literal_delim_inj "'" _ sk sk') in H as [-> H]; [|done..].
  apply (app_literal_delim_inj "&" _ sd sd') in H as [-> H]; [|done..].
  apply (app_literal_delim_inj "'" _ ed ed') in H as [-> H]; [|done..].
  done.
Qed.

Lemma query_inj_witness :
  "AK" = "AK" ∧ "SK" = "SK" ∧ "2025-05-01" = "2025-05-01" ∧ "2025-05-02" = "2025-05-02".
Proof.
  apply (query_inj "AK" "SK" "2025-05-01" "2025-05-02" "AK" "SK" "2025-05-01" "2025-05-02");
    reflexivity.
Defined.

(** Without that condition the text does not determine them: a quote in
    a credential moves the border between the two. *)
Example quote_moves_the_border :
  let cut := "';" +:+ Str.nl +:+ indent 8 +:+ "SET s3_secret_access_key = '" in
  query "A" ("B" +:+ cut +:+ "C") "2025-05-01" "2025-05-02" =
  query ("A" +:+ cut +:+ "B") "C" "2025-05-01" "2025-05-02".
Proof. vm_compute. reflexivity. Qed.

(** The dates that [format] writes are free of quotes and ampersands. *)
Lemma digit_is_plain (c : ascii) :
  Str.is_digit c = true → Ascii.eqb c "'" = false ∧ Ascii.eqb c "&" = false.
Proof.
  destruct c as [[] [] [] [] [] [] [] []]; intros H; try discriminate H; by split.
Qed.

Lemma format_plain (d : DateTime) :
  valid_date d → (1000 ≤ year d)%Z → plain (format d "YYYY-MM-DD") = true.
Proof.
  intros (Hy & Hm & Hd) Hy4. rewrite format_iso.
  destruct (digits_of_4 _ _ (fmt_d_year (year d) ltac:(lia)))
    as (y1 & y2 & y3 & y4 & -> & Dy & _).
  destruct (digits_of_2 _ _ (fmt_int_2 (month d) ltac:(lia))) as (m1 & m2 & -> & Dm & _).
  destruct (digits_of_2 _ _ (fmt_int_2 (day d) ltac:(lia))) as (d1 & d2 & -> & Dd & _).
  cbn in Dy, Dm, Dd.
  repeat match goal with H : _ && _ = true |- _ => apply andb_true_iff in H as [? ?] end.
  repeat match goal with H : Str.is_digit _ = true |- _ =>
    apply digit_is_plain in H as [? ?] end.
  unfold plain. rewrite !StrSplit.free_of_app. cbn [free_of].
  repeat match goal with H : Ascii.eqb _ _ = false |- _ => rewrite H; clear H end.
  reflexivity.
Qed.

(** ** The wiring of the DAG *)

Lemma wiring_graph :
  Wiring.wiring =
  Ok (Wiring.mkGraph
        ["start"; "get_and_transfer_api_data_to_s3"; "end"]
        [("start", "get_and_transfer_api_data_to_s3");
         ("get_and_transfer_api_data_to_s3", "end")]).
Proof. vm_compute. reflexivity. Qed.

Lemma order_of_three (ids order : list string) :
  length ids = 3 → NoDup ids →
  NoDup order → (∀ x, x ∈ order ↔ x ∈ ids) →
  ∃ a b c, order = [a; b; c] ∧ a ∈ ids ∧ b ∈ ids ∧ c ∈ ids.
Proof.
  intros Hlen Hids Hnd Hin.
  assert (Hperm : order ≡ₚ ids) by (by apply NoDup_Permutation).
  apply Permutation_length in Hperm. rewrite Hlen in Hperm.
  destruct order as [|a [|b [|c [|? ?]]]]; try discriminate Hperm.
  exists a, b, c. split; [reflexivity|].
  repeat split; apply Hin; repeat constructor.
Qed.

(** X11: the [with DAG] block creates three tasks with distinct ids and
    chains them start >> get_and_transfer_api_data_to_s3 >> end; the only
    order of execution that runs every task once, each after its upstream
    tasks, is that chain. *)
Theorem linear_wiring :
  ∃ g, Wiring.wiring = Ok g ∧
    Wiring.task_ids g = ["start"; "get_and_transfer_api_data_to_s3"; "end"] ∧
    Wiring.edges g = [("start", "get_and_transfer_api_data_to_s3");
                      ("get_and_transfer_api_data_to_s3", "end")] ∧
    (∀ order, Wiring.respects g order ↔
       order = ["start"; "get_and_transfer_api_data_to_s3"; "end"]).
Proof.
  eexists. split; [apply wiring_graph|].
  split; [reflexivity|]. split; [reflexivity|].
  intros order. unfold Wiring.respects. cbn [Wiring.task_ids Wiring.edges]. split.
  - intros (Hnd & Hin & Hedges).
    destruct (order_of_three
                ["start"; "get_and_transfer_api_data_to_s3"; "end"] order eq_refl
                ltac:(apply (bool_decide_unpack _); by vm_compute) Hnd Hin)
      as (a & b & c & -> & Ha & Hb & Hc).
    pose proof (Hedges "start" "get_and_transfer_api_data_to_s3"
                  ltac:(repeat constructor)) as E1.
    pose proof (Hedges "get_and_transfer_api_data_to_s3" "end"
                  ltac:(repeat constructor)) as E2.
    rewrite !elem_of_cons, elem_of_nil in Ha, Hb, Hc.
    destruct Ha as [->|[->|[->|[]]]], Hb as [->|[->|[->|[]]]],
             Hc as [->|[->|[->|[]]]];
      try (vm_compute in E1; discriminate E1);
      try (vm_compute in E2; discriminate E2); reflexivity.
  - intros ->. split; [|split].
    + apply (bool_decide_unpack _). by vm_compute.
    + reflexivity.
    + intros a b Hab. rewrite !elem_of_cons, elem_of_nil in Hab.
      destruct Hab as [[= -> ->]|[[= -> ->]|[]]]; reflexivity.
Qed.

(** A second operator with a task id of the DAG is refused. *)
Example duplicate_task_id :
  ∀ g, Wiring.wiring = Ok g →
  Wiring.add_task g (Wiring.EmptyOperator "start") =
  Err (Raised "airflow.exceptions.DuplicateTaskIdFound" "start").
Proof. intros g. rewrite wiring_graph. intros [= <-]. vm_compute. reflexivity. Qed.
